(** * Agent loop and sandboxed tool executors (learn-claude-code-ts)

    A shallow embedding of [agent/s02_tool_use.ts], the four-tool agent over
    the OpenAI chat API, and of the two single-tool [s01_agent_loop]
    variants (Anthropic and OpenAI), with the properties of the
    specification stated over it.

    Conventions.
    - A JavaScript string is a [string]: a sequence of code units, here the
      code units below 256.
    - A thrown exception is the left injection of a sum, a returned value the
      right one.
    - The model endpoint and the shell are collaborators of the program and
      variables of the sections that use them; so is [JSON.parse], which the
      examples instantiate with the reader of module [JSON].
    - An [await] is the call it waits for: one thread of control runs the
      loop, and nothing else touches the conversation. *)

From Stdlib Require Import ZArith Ascii String List Bool Lia.
From stdpp Require Import gmap strings list pretty.

Set Warnings "-register-all".

Local Open Scope char_scope.
Local Open Scope string_scope.
Local Open Scope list_scope.

(** ** JavaScript string primitives *)

Module JS.

(** The line feed, the only separator [runRead] splits on. *)
Definition LF : ascii := "010".
Definition nl : string := String LF EmptyString.

(** [s.startsWith(pat)] *)
Fixpoint startsWith (s pat : string) {struct pat} : bool :=
  match pat with
  | EmptyString => true
  | String c pat' =>
      match s with
      | EmptyString => false
      | String d s' => if Ascii.eqb c d then startsWith s' pat' else false
      end
  end.

(** [s.indexOf(pat)]: position of the first occurrence, [None] for -1. *)
Fixpoint indexOf (s pat : string) : option nat :=
  if startsWith s pat then Some 0
  else match s with
       | EmptyString => None
       | String _ s' => S <$> indexOf s' pat
       end.

(** [s.includes(pat)] *)
Definition includes (s pat : string) : bool :=
  match indexOf s pat with Some _ => true | None => false end.

Fixpoint take (n : nat) (s : string) : string :=
  match n, s with
  | S n', String c s' => String c (take n' s')
  | _, _ => EmptyString
  end.

Fixpoint drop (n : nat) (s : string) : string :=
  match n, s with
  | S n', String _ s' => drop n' s'
  | _, _ => s
  end.

(** [s.substring(a, b)] on non-negative integers: the arguments are swapped
    when [a > b] and clamped to the length. *)
Definition substring (s : string) (a b : nat) : string :=
  take (Nat.max a b - Nat.min a b) (drop (Nat.min a b) s).

(** White space and line terminators of ECMAScript among the code units
    below 256: TAB, LF, VT, FF, CR, SP and NBSP. *)
Definition isWhite (c : ascii) : bool :=
  let n := nat_of_ascii c in
  ((9 <=? n)%nat && (n <=? 13)%nat) || (n =? 32)%nat || (n =? 160)%nat.

Fixpoint trimStart (s : string) : string :=
  match s with
  | EmptyString => EmptyString
  | String c s' => if isWhite c then trimStart s' else s
  end.

Fixpoint trimEnd (s : string) : string :=
  match s with
  | EmptyString => EmptyString
  | String c s' =>
      match trimEnd s' with
      | EmptyString => if isWhite c then EmptyString else String c EmptyString
      | t => String c t
      end
  end.

(** [s.trim()] *)
Definition trim (s : string) : string := trimEnd (trimStart s).

(** [s.split(sep)] for a one-character separator: never the empty list. *)
Fixpoint split (sep : ascii) (s : string) : list string :=
  match s with
  | EmptyString => [EmptyString]
  | String c s' =>
      if Ascii.eqb c sep then EmptyString :: split sep s'
      else match split sep s' with
           | l :: ls => String c l :: ls
           | [] => [String c EmptyString]
           end
  end.

(** [parts.join(sep)] *)
Fixpoint join (sep : string) (parts : list string) : string :=
  match parts with
  | [] => EmptyString
  | [p] => p
  | p :: ps => p +:+ sep +:+ join sep ps
  end.

(** GetSubstitution of ECMA-262 for a string pattern (no captures, no named
    groups): [$$] is a dollar, [$&] the matched text, [$`] the text before
    the match, [$'] the text after it; any other [$] stands for itself. *)
Fixpoint getSubstitution (matched before after template : string) : string :=
  match template with
  | EmptyString => EmptyString
  | String c t =>
      if Ascii.eqb c "$" then
        match t with
        | String "$" t' => String "$" (getSubstitution matched before after t')
        | String "&" t' => matched +:+ getSubstitution matched before after t'
        | String "`" t' => before +:+ getSubstitution matched before after t'
        | String "'" t' => after +:+ getSubstitution matched before after t'
        | _ => String "$" (getSubstitution matched before after t)
        end
      else String c (getSubstitution matched before after t)
  end.

(** [s.replace(pat, repl)] with a string pattern: the first occurrence only,
    and [repl] is a replacement template. *)
Definition replace (s pat repl : string) : string :=
  match indexOf s pat with
  | None => s
  | Some pos =>
      let before := take pos s in
      let after := drop (pos + String.length pat) s in
      before +:+ getSubstitution pat before after repl +:+ after
  end.

(** [s.replace(/\n/g, "\\n")]: every line feed becomes a backslash and an n. *)
Fixpoint escapeNewlines (s : string) : string :=
  match s with
  | EmptyString => EmptyString
  | String c s' =>
      if Ascii.eqb c LF then String "\" (String "n" (escapeNewlines s'))
      else String c (escapeNewlines s')
  end.

(** A thrown [Error]: its class and its message. *)
Record Error := mkError { name : string; message : string }.

(** The sum of a throwing computation: [inl] thrown, [inr] returned. *)
Definition Completion (A : Type) : Type := Error + A.

(** Number to string, for the integers. *)
Definition numberToString (z : Z) : string := pretty z.

(** [Buffer.byteLength(s, "utf8")]: one byte below 128, two up to 255. *)
Fixpoint utf8Length (s : string) : nat :=
  match s with
  | EmptyString => 0
  | String c s' => ((if (nat_of_ascii c <? 128)%nat then 1 else 2) + utf8Length s')%nat
  end.

(** [s.toLowerCase()] on the code units below 256: the letters A to Z and
    the capital letters from 192 to 222, the multiplication sign at 215
    apart, move up by 32. *)
Definition lowerChar (c : ascii) : ascii :=
  let n := nat_of_ascii c in
  if ((65 <=? n) && (n <=? 90))%nat
     || ((192 <=? n) && (n <=? 222) && negb (n =? 215))%nat
  then ascii_of_nat (n + 32)
  else c.

Fixpoint toLowerCase (s : string) : string :=
  match s with
  | EmptyString => EmptyString
  | String c s' => String (lowerChar c) (toLowerCase s')
  end.

End JS.

(** ** [node:path], POSIX flavour, on an absolute working directory *)

Module Path.

Definition SEP : ascii := "/".

(** One step of the normalisation of [path.resolve], on a stack of segments
    (innermost first): empty segments and [.] vanish, [..] pops and stops at
    the root. *)
Definition step (stack : list string) (seg : string) : list string :=
  if decide (seg = EmptyString) then stack
  else if decide (seg = ".") then stack
  else if decide (seg = "..") then tail stack
  else seg :: stack.

Definition normalize (p : string) : list string :=
  rev (fold_left step (JS.split SEP p) []).

Definition ofSegments (segs : list string) : string :=
  String SEP (JS.join (String SEP EmptyString) segs).

(** [path.resolve(cwd, p)] for an absolute [cwd]: an absolute [p] stands
    alone, a relative one is appended to [cwd]; the result is normalised and
    carries no trailing separator. *)
Definition resolve (cwd p : string) : string :=
  let full :=
    if JS.startsWith p (String SEP EmptyString) then p
    else cwd +:+ String SEP EmptyString +:+ p in
  ofSegments (normalize full).

(** [path.dirname(fp)] on the absolute normalised paths [resolve] returns. *)
Definition dirname (fp : string) : string :=
  ofSegments (removelast (normalize fp)).

(** [fp] is the directory [dir] or lies under it, segment by segment. *)
Definition within (dir fp : string) : Prop :=
  normalize dir `prefix_of` normalize fp.

End Path.

(** ** The file system behind [node:fs/promises] *)

Module FS.

Inductive node : Type :=
  | File (content : string)
  | Dir.

(** Absolute normalised path to node; the root is a directory throughout. *)
Abbreviation t := (gmap string node).

Definition isDir (fs : t) (p : string) : bool :=
  bool_decide (p = "/") || match fs !! p with Some Dir => true | _ => false end.

Definition ENOENT (call p : string) : JS.Error :=
  JS.mkError "Error" ("ENOENT: no such file or directory, " +:+ call +:+ " '" +:+ p +:+ "'").
Definition EISDIR (call p : string) : JS.Error :=
  JS.mkError "Error" ("EISDIR: illegal operation on a directory, " +:+ call +:+ " '" +:+ p +:+ "'").
Definition ENOTDIR (call p : string) : JS.Error :=
  JS.mkError "Error" ("ENOTDIR: not a directory, " +:+ call +:+ " '" +:+ p +:+ "'").
Definition EEXIST (call p : string) : JS.Error :=
  JS.mkError "Error" ("EEXIST: file already exists, " +:+ call +:+ " '" +:+ p +:+ "'").

(** [fs.readFile(p, "utf-8")] *)
Definition readFile (fs : t) (p : string) : JS.Completion string :=
  if bool_decide (p = "/") then inl (EISDIR "read" p)
  else match fs !! p with
       | Some (File c) => inr c
       | Some Dir => inl (EISDIR "read" p)
       | None => inl (ENOENT "open" p)
       end.

(** The directories of [fs.mkdir(p, {recursive: true})], outermost first:
    each is created unless it is there; a file in the way throws. *)
Fixpoint mkdirs (fs : t) (base : string) (segs : list string) : JS.Completion t :=
  match segs with
  | [] => inr fs
  | seg :: rest =>
      let p := base +:+ "/" +:+ seg in
      match fs !! p with
      | Some (File _) =>
          inl (match rest with [] => EEXIST "mkdir" p | _ => ENOTDIR "mkdir" p end)
      | _ => mkdirs (<[p := Dir]> fs) p rest
      end
  end.

Definition mkdirRecursive (fs : t) (p : string) : JS.Completion t :=
  mkdirs fs EmptyString (Path.normalize p).

(** [fs.writeFile(p, content, "utf-8")]: creates or overwrites the file. *)
Definition writeFile (fs : t) (p content : string) : JS.Completion t :=
  match fs !! p with
  | Some (File _) => inr (<[p := File content]> fs)
  | Some Dir => inl (EISDIR "open" p)
  | None =>
      if bool_decide (p = "/") then inl (EISDIR "open" p)
      else if isDir fs (Path.dirname p) then inr (<[p := File content]> fs)
      else inl (ENOENT "open" p)
  end.

End FS.

(** ** The shell behind [child_process.exec] and [Bun.spawn] *)

Module Proc.

(** What running one command through the shell comes to: the launch fails,
    or the process exits, or it is still running at the 120 s timeout and is
    killed. For a killed process [registered] tells whether the runtime has
    taken note of the kill by the time the two streams have ended: that is
    what [proc.killed] of [Bun.spawn] reads there, with no wait for the exit
    of the process; [exec] reports the kill either way. *)
Inductive result : Type :=
  | LaunchFailed (msg : string)
  | Exited (code : Z) (stdout stderr : string)
  | TimedOut (stdout stderr : string) (registered : bool).

(** The fields of the error [execAsync] rejects with that [runBash] reads. *)
Record ExecError := mkExecError {
  killed : bool;
  signal : option string;
  e_stdout : option string;
  e_stderr : option string;
  e_message : string
}.

(** The promisified [exec]: it resolves with the two streams on exit status
    0 and rejects otherwise. *)
Definition execAsync (command : string) (r : result) : ExecError + (string * string) :=
  match r with
  | Exited code out err =>
      if (code =? 0)%Z then inr (out, err)
      else inl (mkExecError false None (Some out) (Some err)
                  ("Command failed: " +:+ command +:+ JS.nl +:+ err))
  | TimedOut out err _ =>
      inl (mkExecError true (Some "SIGTERM") (Some out) (Some err)
             ("Command failed: " +:+ command +:+ JS.nl +:+ err))
  | LaunchFailed msg =>
      inl (mkExecError false None None None msg)
  end.

End Proc.

(** ** JSON values and a reader for JSON texts *)

Module JSON.

(** A JSON number is kept as the decimal [m * 10^e] its literal denotes. *)
Inductive value : Type :=
  | JNull
  | JBool (b : bool)
  | JNum (m e : Z)
  | JStr (s : string)
  | JArr (items : list value)
  | JObj (fields : list (string * value)).

(** [v[k]] for the keys the handlers read: [None] is [undefined]. Of several
    members with one key the last one counts, as [JSON.parse] has it. *)
Fixpoint getField (fields : list (string * value)) (k : string) : option value :=
  match fields with
  | [] => None
  | (k', v) :: rest =>
      match getField rest k with
      | Some v' => Some v'
      | None => if decide (k = k') then Some v else None
      end
  end.

Definition get (v : value) (k : string) : option value :=
  match v with
  | JObj fields => getField fields k
  | _ => None
  end.

(** The integer a number is, if it is one. *)
Definition asInteger (m e : Z) : option Z :=
  if (0 <=? e)%Z then Some (m * 10 ^ e)%Z
  else if (m mod 10 ^ (- e) =? 0)%Z then Some (m / 10 ^ (- e))%Z
  else None.

Definition DQUOTE : ascii := "034".

Definition isJsonWhite (c : ascii) : bool :=
  let n := nat_of_ascii c in
  (n =? 32)%nat || (n =? 9)%nat || (n =? 10)%nat || (n =? 13)%nat.

Fixpoint skipWhite (s : string) : string :=
  match s with
  | String c s' => if isJsonWhite c then skipWhite s' else s
  | EmptyString => s
  end.

Definition digit (c : ascii) : option Z :=
  let n := nat_of_ascii c in
  if ((48 <=? n) && (n <=? 57))%nat then Some (Z.of_nat n - 48)%Z else None.

Definition hexDigit (c : ascii) : option nat :=
  let n := nat_of_ascii c in
  if ((48 <=? n) && (n <=? 57))%nat then Some (n - 48)%nat
  else if ((97 <=? n) && (n <=? 102))%nat then Some (n - 87)%nat
  else if ((65 <=? n) && (n <=? 70))%nat then Some (n - 55)%nat
  else None.

(** A run of digits: its value continued from [acc], how many there were,
    and the rest of the text. *)
Fixpoint digits (acc : Z) (count : nat) (s : string) : Z * nat * string :=
  match s with
  | String c s' =>
      match digit c with
      | Some d => digits (acc * 10 + d)%Z (S count) s'
      | None => (acc, count, s)
      end
  | EmptyString => (acc, count, s)
  end.

(** The integer part: a lone 0, or digits that do not start with 0. *)
Definition readInt (s : string) : option (Z * string) :=
  match s with
  | String "0" s' => Some (0%Z, s')
  | _ => match digits 0 0 s with
         | (_, O, _) => None
         | (n, _, rest) => Some (n, rest)
         end
  end.

Definition readFraction (n : Z) (s : string) : option (Z * Z * string) :=
  match s with
  | String "." s' =>
      match digits n 0 s' with
      | (_, O, _) => None
      | (m, k, rest) => Some (m, (- Z.of_nat k)%Z, rest)
      end
  | _ => Some (n, 0%Z, s)
  end.

Definition readExponent (s : string) : option (Z * string) :=
  let unsigned (neg : bool) (t : string) :=
    match digits 0 0 t with
    | (_, O, _) => None
    | (x, _, rest) => Some (if neg then (- x)%Z else x, rest)
    end in
  match s with
  | String c s' =>
      if Ascii.eqb c "e" || Ascii.eqb c "E" then
        match s' with
        | String "+" t => unsigned false t
        | String "-" t => unsigned true t
        | _ => unsigned false s'
        end
      else Some (0%Z, s)
  | EmptyString => Some (0%Z, s)
  end.

Definition readNumber (s : string) : option (value * string) :=
  let '(neg, s1) := match s with String "-" t => (true, t) | _ => (false, s) end in
  match readInt s1 with
  | None => None
  | Some (n, s2) =>
      match readFraction n s2 with
      | None => None
      | Some (m, e1, s3) =>
          match readExponent s3 with
          | None => None
          | Some (e2, s4) => Some (JNum (if neg then - m else m) (e1 + e2), s4)
          end
      end
  end.

(** The body of a string after its opening quote. A [\u] escape is read when
    it names a code unit below 256. *)
Fixpoint readString (s : string) : option (string * string) :=
  match s with
  | EmptyString => None
  | String c s' =>
      if Ascii.eqb c DQUOTE then Some (EmptyString, s')
      else if Ascii.eqb c "\" then
        match s' with
        | String e s'' =>
            let simple (x : ascii) :=
              match readString s'' with
              | Some (body, rest) => Some (String x body, rest)
              | None => None
              end in
            if Ascii.eqb e DQUOTE then simple DQUOTE
            else if Ascii.eqb e "\" then simple "\"%char
            else if Ascii.eqb e "/" then simple "/"%char
            else if Ascii.eqb e "b" then simple "008"%char
            else if Ascii.eqb e "f" then simple "012"%char
            else if Ascii.eqb e "n" then simple "010"%char
            else if Ascii.eqb e "r" then simple "013"%char
            else if Ascii.eqb e "t" then simple "009"%char
            else if Ascii.eqb e "u" then
              match s'' with
              | String h1 (String h2 (String h3 (String h4 s4))) =>
                  match hexDigit h1, hexDigit h2, hexDigit h3, hexDigit h4 with
                  | Some 0%nat, Some 0%nat, Some a, Some b =>
                      match readString s4 with
                      | Some (body, rest) =>
                          Some (String (ascii_of_nat (16 * a + b)) body, rest)
                      | None => None
                      end
                  | _, _, _, _ => None
                  end
              | _ => None
              end
            else None
        | EmptyString => None
        end
      else if (nat_of_ascii c <? 32)%nat then None
      else match readString s' with
           | Some (body, rest) => Some (String c body, rest)
           | None => None
           end
  end.

Definition expect (lit : string) (v : value) (s : string) : option (value * string) :=
  if JS.startsWith s lit then Some (v, JS.drop (String.length lit) s) else None.

Section Compound.
Variable readValue : string -> option (value * string).

(** Elements after the first one of an array: [, value]* and the bracket. *)
Fixpoint readElements (fuel : nat) (acc : list value) (s : string)
  : option (value * string) :=
  match fuel with
  | O => None
  | S fuel' =>
      match skipWhite s with
      | String "]" rest => Some (JArr (rev acc), rest)
      | String "," rest =>
          match readValue rest with
          | Some (v, rest') => readElements fuel' (v :: acc) rest'
          | None => None
          end
      | _ => None
      end
  end.

Definition readMember (s : string) : option (string * value * string) :=
  match skipWhite s with
  | String c s1 =>
      if Ascii.eqb c DQUOTE then
        match readString s1 with
        | Some (k, s2) =>
            match skipWhite s2 with
            | String ":" s3 =>
                match readValue s3 with
                | Some (v, s4) => Some (k, v, s4)
                | None => None
                end
            | _ => None
            end
        | None => None
        end
      else None
  | EmptyString => None
  end.

Fixpoint readMembers (fuel : nat) (acc : list (string * value)) (s : string)
  : option (value * string) :=
  match fuel with
  | O => None
  | S fuel' =>
      match skipWhite s with
      | String "}" rest => Some (JObj (rev acc), rest)
      | String "," rest =>
          match readMember rest with
          | Some (k, v, rest') => readMembers fuel' ((k, v) :: acc) rest'
          | None => None
          end
      | _ => None
      end
  end.
End Compound.

Fixpoint readValue (fuel : nat) (s : string) : option (value * string) :=
  match fuel with
  | O => None
  | S fuel' =>
      match skipWhite s with
      | EmptyString => None
      | String c rest as t =>
          if Ascii.eqb c "n" then expect "null" JNull t
          else if Ascii.eqb c "t" then expect "true" (JBool true) t
          else if Ascii.eqb c "f" then expect "false" (JBool false) t
          else if Ascii.eqb c DQUOTE then
            match readString rest with
            | Some (str, rest') => Some (JStr str, rest')
            | None => None
            end
          else if Ascii.eqb c "[" then
            match skipWhite rest with
            | String "]" rest' => Some (JArr [], rest')
            | _ =>
                match readValue fuel' rest with
                | Some (v, rest') => readElements (readValue fuel') fuel' [v] rest'
                | None => None
                end
            end
          else if Ascii.eqb c "{" then
            match skipWhite rest with
            | String "}" rest' => Some (JObj [], rest')
            | _ =>
                match readMember (readValue fuel') rest with
                | Some (k, v, rest') =>
                    readMembers (readValue fuel') fuel' [(k, v)] rest'
                | None => None
                end
            end
          else readNumber t
      end
  end.

(** [JSON.parse(text)]: [None] stands for the [SyntaxError] it throws. *)
Definition parse (text : string) : option value :=
  match readValue (S (String.length text)) text with
  | Some (v, rest) =>
      match skipWhite rest with
      | EmptyString => Some v
      | _ => None
      end
  | None => None
  end.

(** A text in double quotes, for writing JSON texts down. *)
Definition quoted (s : string) : string :=
  String DQUOTE s +:+ String DQUOTE EmptyString.

End JSON.

(** ** [agent/s02_tool_use.ts] *)

Module S02.

(** What the executors act on: the file system, and the commands handed to
    the shell so far, oldest first. *)
Record World := mkWorld { fs : FS.t; procs : list string }.

Definition OUTPUT_LIMIT : nat := Z.to_nat 50000.

Definition dangerous : list string :=
  ["rm -rf /"; "sudo"; "shutdown"; "reboot"; "> /dev/"].

(** JavaScript truthiness of a string. *)
Definition truthy (s : string) : bool := negb (bool_decide (s = EmptyString)).

Section Executors.
(** [process.cwd()], an absolute path. *)
Variable WORKDIR : string.
(** What the shell does with a command, given the file system. *)
Variable shell : string -> FS.t -> Proc.result * FS.t.

Definition safePath (p : string) : JS.Completion string :=
  let resolvedPath := Path.resolve WORKDIR p in
  if negb (JS.startsWith resolvedPath WORKDIR)
  then inl (JS.mkError "Error" ("Path escapes workspace: " +:+ p))
  else inr resolvedPath.

Definition runBash (command : string) (w : World) : string * World :=
  if existsb (fun d => JS.includes command d) dangerous
  then ("Error: Dangerous command blocked", w)
  else
    let '(r, fs') := shell command (fs w) in
    let w' := mkWorld fs' (procs w ++ [command])%list in
    match Proc.execAsync command r with
    | inr (stdout, stderr) =>
        let out := JS.trim (stdout +:+ stderr) in
        (if truthy out then JS.substring out 0 OUTPUT_LIMIT else "(no output)", w')
    | inl e =>
        if Proc.killed e && bool_decide (Proc.signal e = Some "SIGTERM")
        then ("Error: Timeout (120s)", w')
        else
          let out := JS.trim (default EmptyString (Proc.e_stdout e)
                              +:+ default EmptyString (Proc.e_stderr e)) in
          (if truthy out then JS.substring out 0 OUTPUT_LIMIT
           else "Error: " +:+ Proc.e_message e, w')
    end.

(** [lines.slice(0, limit)] for an integer [limit]: a negative end counts
    from the end of the array. *)
Definition sliceTo (limit : Z) (lines : list string) : list string :=
  if (limit <? 0)%Z
  then firstn (Z.to_nat (Z.max (Z.of_nat (length lines) + limit) 0)) lines
  else firstn (Z.to_nat limit) lines.

(** [limit] is an integer, as the tool's schema declares it; [None] is an
    argument left out. *)
Definition runRead (p : string) (limit : option Z) (w : World) : string * World :=
  match safePath p with
  | inl e => ("Error: " +:+ JS.message e, w)
  | inr fp =>
      match FS.readFile (fs w) fp with
      | inl e => ("Error: " +:+ JS.message e, w)
      | inr text =>
          let lines := JS.split JS.LF text in
          let lines :=
            match limit with
            | Some l =>
                if negb (l =? 0)%Z && (l <? Z.of_nat (length lines))%Z
                then (sliceTo l lines
                      ++ ["... ("
                          +:+ JS.numberToString
                                (Z.of_nat (length (JS.split JS.LF text)) - l)
                          +:+ " more lines)"])%list
                else lines
            | None => lines
            end in
          (JS.substring (JS.join JS.nl lines) 0 OUTPUT_LIMIT, w)
      end
  end.

Definition runWrite (p content : string) (w : World) : string * World :=
  match safePath p with
  | inl e => ("Error: " +:+ JS.message e, w)
  | inr fp =>
      match FS.mkdirRecursive (fs w) (Path.dirname fp) with
      | inl e => ("Error: " +:+ JS.message e, w)
      | inr fs1 =>
          match FS.writeFile fs1 fp content with
          | inl e => ("Error: " +:+ JS.message e, mkWorld fs1 (procs w))
          | inr fs2 =>
              ("Wrote " +:+ JS.numberToString (Z.of_nat (JS.utf8Length content))
               +:+ " bytes to " +:+ p,
               mkWorld fs2 (procs w))
          end
      end
  end.

Definition runEdit (p oldText newText : string) (w : World) : string * World :=
  match safePath p with
  | inl e => ("Error: " +:+ JS.message e, w)
  | inr fp =>
      match FS.readFile (fs w) fp with
      | inl e => ("Error: " +:+ JS.message e, w)
      | inr content =>
          if negb (JS.includes content oldText)
          then ("Error: Text not found in " +:+ p, w)
          else
            match FS.writeFile (fs w) fp (JS.replace content oldText newText) with
            | inl e => ("Error: " +:+ JS.message e, w)
            | inr fs' => ("Edited " +:+ p, mkWorld fs' (procs w))
            end
      end
  end.
End Executors.

(** *** The dispatch map and the loop *)

Inductive Tool : Type := Bash | ReadFile | WriteFile | EditFile.

(** What [TOOL_HANDLERS[name]] evaluates to when it is not [undefined]: one
    of the four handlers of the object literal, or a member the literal
    inherits from [Object.prototype]. *)
Inductive Handler : Type :=
  | Own (t : Tool)
  | Inherited (member : string).

Definition objectPrototype : list string :=
  ["constructor"; "__defineGetter__"; "__defineSetter__"; "hasOwnProperty";
   "__lookupGetter__"; "__lookupSetter__"; "isPrototypeOf";
   "propertyIsEnumerable"; "toString"; "valueOf"; "__proto__";
   "toLocaleString"].

Definition registry : list (string * Tool) :=
  [("bash", Bash); ("read_file", ReadFile); ("write_file", WriteFile);
   ("edit_file", EditFile)].

Fixpoint own (entries : list (string * Tool)) (name : string) : option Tool :=
  match entries with
  | [] => None
  | (k, t) :: rest => if decide (name = k) then Some t else own rest name
  end.

(** Property lookup on the object literal: own properties first, then the
    prototype. *)
Definition TOOL_HANDLERS (name : string) : option Handler :=
  match own registry name with
  | Some t => Some (Own t)
  | None =>
      if bool_decide (name ∈ objectPrototype) then Some (Inherited name)
      else None
  end.

Record ToolCall := mkToolCall {
  call_id : string;
  fn_name : string;
  fn_arguments : string
}.

Inductive Message : Type :=
  | System (content : string)
  | User (content : string)
  | Assistant (content : option string) (tool_calls : option (list ToolCall))
  | ToolResult (tool_call_id : string) (content : string).

(** [response.choices[0]]: its message and its finish reason. *)
Record Response := mkResponse {
  r_content : option string;
  r_tool_calls : option (list ToolCall);
  finish_reason : string
}.

(** The state of a run: the world of the executors, the conversation (the
    array [agentLoop] pushes to), the lines written to the console and the
    conversations sent to the model, oldest first. *)
Record State := mkState {
  world : World;
  messages : list Message;
  console : list string;
  requests : list (list Message)
}.

Inductive Outcome : Type :=
  | Returned (st : State)
  | Raised (e : JS.Error) (st : State)
  | OutOfFuel (st : State).

Definition finalState (o : Outcome) : State :=
  match o with
  | Returned st | Raised _ st | OutOfFuel st => st
  end.

Definition typeError (msg : string) : JS.Error := JS.mkError "TypeError" msg.

(** The arguments of a call that fit the signature of its executor. *)
Definition asString (v : option JSON.value) : option string :=
  match v with
  | Some (JSON.JStr s) => Some s
  | _ => None
  end.

(** An optional integer the doubles hold exactly, with room for a line
    count; [Some None] is the argument left out. *)
Definition asLimit (v : option JSON.value) : option (option Z) :=
  match v with
  | None => Some None
  | Some (JSON.JNum m e) =>
      match JSON.asInteger m e with
      | Some z => if (Z.abs z <? 2 ^ 52)%Z then Some (Some z) else None
      | None => None
      end
  | Some _ => None
  end.

(** A member of [Object.prototype] called as [handler(args)], with no
    [this]: [toString] answers for [undefined]; [constructor] wraps [args]
    in an object, and only the wrapper of a string has the [substring] the
    trace line calls; the others throw a [TypeError] ([__proto__] is not a
    function; the rest reject an undefined [this], [isPrototypeOf] at the
    latest when its boolean meets [substring]). *)
Definition callInherited (member : string) (args : JSON.value) : JS.Completion string :=
  if decide (member = "toString") then inr "[object Undefined]"
  else if decide (member = "constructor") then
    match args with
    | JSON.JStr s => inr s
    | _ => inl (typeError "output.substring is not a function")
    end
  else inl (typeError (member +:+ " cannot be called this way")).

Section Loop.
Variable WORKDIR : string.
Variable shell : string -> FS.t -> Proc.result * FS.t.
(** [JSON.parse]; [None] is a thrown [SyntaxError]. *)
Variable JSON_parse : string -> option JSON.value.
(** [openai.chat.completions.create] down to [choices[0]]; a failed call,
    or a response without a first choice, is the left injection. *)
Variable llm : list Message -> JS.Completion Response.
(** What a file executor does with arguments outside its signature: that
    is up to the coercions of the runtime and the checks of its libraries.
    The three bodies are one [try] each, so a string comes back. *)
Variable untyped : Tool -> JSON.value -> World -> string * World.

Definition SYSTEM : string :=
  "You are a coding agent at " +:+ WORKDIR
  +:+ ". Use tools to solve tasks. Act, don't explain.".

Definition returns (r : string * World) : JS.Completion string * World :=
  (inr (fst r), snd r).

(** [runBash(args.command)] on whatever [args.command] is: a string runs;
    an array has an [includes] of its own, and [exec] then refuses it
    inside the [try]; anything else has no [includes] to call. *)
Definition bashHandler (args : JSON.value) (w : World) : JS.Completion string * World :=
  match JSON.get args "command" with
  | Some (JSON.JStr command) => returns (runBash shell command w)
  | Some (JSON.JArr items) =>
      let has (d : string) :=
        existsb (fun v => match v with
                          | JSON.JStr s => bool_decide (s = d)
                          | _ => false
                          end) items in
      if existsb has dangerous
      then (inr "Error: Dangerous command blocked", w)
      else (inr ("Error: The " +:+ JSON.quoted "command"
                 +:+ " argument must be of type string. Received an instance of Array"), w)
  | _ => (inl (typeError "command.includes is not a function"), w)
  end.

Definition callOwn (t : Tool) (args : JSON.value) (w : World)
  : JS.Completion string * World :=
  match t with
  | Bash => bashHandler args w
  | ReadFile =>
      match asString (JSON.get args "path"), asLimit (JSON.get args "limit") with
      | Some p, Some limit => returns (runRead WORKDIR p limit w)
      | _, _ => returns (untyped t args w)
      end
  | WriteFile =>
      match asString (JSON.get args "path"), asString (JSON.get args "content") with
      | Some p, Some content => returns (runWrite WORKDIR p content w)
      | _, _ => returns (untyped t args w)
      end
  | EditFile =>
      match asString (JSON.get args "path"),
            asString (JSON.get args "old_text"),
            asString (JSON.get args "new_text") with
      | Some p, Some oldText, Some newText =>
          returns (runEdit WORKDIR p oldText newText w)
      | _, _, _ => returns (untyped t args w)
      end
  end.

(** [handler(args)]: the arrow functions read a property of [args] first,
    which throws on [null]. *)
Definition callHandler (h : Handler) (args : JSON.value) (w : World)
  : JS.Completion string * World :=
  match h with
  | Inherited member => (callInherited member args, w)
  | Own t =>
      match args with
      | JSON.JNull => (inl (typeError "null is not an object"), w)
      | _ => callOwn t args w
      end
  end.

(** The first three lines of the body of the [for] loop: the output of one
    tool call. *)
Definition invoke (tc : ToolCall) (w : World) : JS.Completion string * World :=
  match JSON_parse (fn_arguments tc) with
  | None => (inl (JS.mkError "SyntaxError" "JSON Parse error"), w)
  | Some args =>
      match TOOL_HANDLERS (fn_name tc) with
      | Some h => callHandler h args w
      | None => (inr ("Unknown tool: " +:+ fn_name tc), w)
      end
  end.

(** The tool call is answered, whatever the world: nothing is thrown. *)
Definition answered (tc : ToolCall) : Prop :=
  forall w, exists output w', invoke tc w = (inr output, w').

Definition traceLine (tc : ToolCall) (output : string) : string :=
  "> " +:+ fn_name tc +:+ ": " +:+ JS.escapeNewlines (JS.substring output 0 200).

(** The [for] loop over [message.tool_calls]: [Some e] when a call threw,
    with the state it left. *)
Fixpoint forToolCalls (tcs : list ToolCall) (st : State) : option JS.Error * State :=
  match tcs with
  | [] => (None, st)
  | tc :: rest =>
      match invoke tc (world st) with
      | (inl e, w') =>
          (Some e, mkState w' (messages st) (console st) (requests st))
      | (inr output, w') =>
          forToolCalls rest
            (mkState w'
               (messages st ++ [ToolResult (call_id tc) output])%list
               (console st ++ [traceLine tc output])%list
               (requests st))
      end
  end.

Definition logContent (content : option string) (out : list string) : list string :=
  match content with
  | Some c => if truthy c then (out ++ [c])%list else out
  | None => out
  end.

(** [agentLoop(messages)]; [fuel] bounds the model calls. *)
Fixpoint agentLoop (fuel : nat) (st : State) : Outcome :=
  match fuel with
  | O => OutOfFuel st
  | S fuel' =>
      let request := System SYSTEM :: messages st in
      let sent := (requests st ++ [request])%list in
      match llm request with
      | inl e => Raised e (mkState (world st) (messages st) (console st) sent)
      | inr response =>
          let message := Assistant (r_content response) (r_tool_calls response) in
          let st' := mkState (world st) (messages st ++ [message])%list
                       (logContent (r_content response) (console st)) sent in
          match r_tool_calls response with
          | Some tcs =>
              if negb (bool_decide (finish_reason response = "tool_calls"))
              then Returned st'
              else match forToolCalls tcs st' with
                   | (Some e, st'') => Raised e st''
                   | (None, st'') => agentLoop fuel' st''
                   end
          | None => Returned st'
          end
      end
  end.
End Loop.

(** *** The session *)

(** The user turns of a conversation, oldest first. *)
Definition userTurns (conversation : list Message) : list string :=
  omap (fun m => match m with User content => Some content | _ => None end)
       conversation.

(** What the loop itself pushes: assistant turns and tool turns. *)
Definition fromLoop (m : Message) : bool :=
  match m with
  | Assistant _ _ | ToolResult _ _ => true
  | System _ | User _ => false
  end.

(** [["q", "exit", ""].includes(query.toLowerCase())] for the trimmed line. *)
Definition isExit (line : string) : bool :=
  existsb (String.eqb (JS.toLowerCase (JS.trim line))) ["q"; "exit"; EmptyString].

Section Main.
Variable WORKDIR : string.
Variable shell : string -> FS.t -> Proc.result * FS.t.
Variable JSON_parse : string -> option JSON.value.
Variable llm : list Message -> JS.Completion Response.
Variable untyped : Tool -> JSON.value -> World -> string * World.

(** The [for await] loop of [main] over the lines the operator types, the
    end of the list being the end of the input. What [agentLoop] throws is
    not caught here: it ends the session. [console.log()] is an empty line;
    the prompt goes to the terminal and is not recorded. *)
Fixpoint mainLoop (fuel : nat) (lines : list string) (st : State) : Outcome :=
  match lines with
  | [] => Returned st
  | line :: rest =>
      if isExit line then Returned st
      else
        match agentLoop WORKDIR shell JSON_parse llm untyped fuel
                (mkState (world st) (messages st ++ [User (JS.trim line)])
                   (console st) (requests st)) with
        | Returned st' =>
            mainLoop fuel rest
              (mkState (world st') (messages st') (console st' ++ [EmptyString])
                 (requests st'))
        | stopped => stopped
        end
  end.

(** [main()]: the history starts empty. *)
Definition main (fuel : nat) (lines : list string) (w : World) : Outcome :=
  mainLoop fuel lines (mkState w [] [] []).
End Main.

End S02.

(** ** The two [s01_agent_loop] variants

    The Anthropic and the OpenAI variant share [runBash] word for word: the
    denylist of [s02_tool_use], then [Bun.spawn] in place of [exec], and no
    look at the exit status. Their loops know one tool and hand every call
    they take up to [runBash]. *)

Module S01.

(** One block of an Anthropic message. *)
Inductive Block : Type :=
  | TextBlock (text : string)
  | ToolUse (id name : string) (input : JSON.value)
  | ToolResultBlock (tool_use_id content : string).

Inductive Content : Type :=
  | Text (text : string)
  | Blocks (blocks : list Block).

Record MessageParam := mkMessageParam { role : string; content : Content }.

Record Reply := mkReply { blocks : list Block; stop_reason : string }.

(** The state of a run of the Anthropic variant. *)
Record State := mkState {
  world : S02.World;
  messages : list MessageParam;
  console : list string;
  requests : list (list MessageParam)
}.

Inductive Outcome : Type :=
  | Returned (st : State)
  | Raised (e : JS.Error) (st : State)
  | OutOfFuel (st : State).

(** JavaScript falsiness of a JSON value. *)
Definition falsy (v : JSON.value) : bool :=
  match v with
  | JSON.JNull | JSON.JBool false => true
  | JSON.JNum m _ => (m =? 0)%Z
  | JSON.JStr s => negb (S02.truthy s)
  | _ => false
  end.

Definition ESC : string := String "027" EmptyString.

(** The identifiers of the tool calls among some blocks, and those of the
    tool results, in the order of the blocks. *)
Definition toolUseIds (bs : list Block) : list string :=
  omap (fun b => match b with ToolUse id _ _ => Some id | _ => None end) bs.

Definition resultIds (bs : list Block) : list string :=
  omap (fun b => match b with ToolResultBlock id _ => Some id | _ => None end) bs.

Section Variants.
Variable shell : string -> FS.t -> Proc.result * FS.t.
Variable JSON_parse : string -> option JSON.value.
(** [String(v)] for a truthy value that is no string; it can throw. *)
Variable toString : JSON.value -> JS.Completion string.

Definition runBash (command : string) (w : S02.World) : string * S02.World :=
  if existsb (fun d => JS.includes command d) S02.dangerous
  then ("Error: Dangerous command blocked", w)
  else
    let '(r, fs') := shell command (S02.fs w) in
    let w' := S02.mkWorld fs' (S02.procs w ++ [command])%list in
    let answer (stdout stderr : string) :=
      let out := JS.trim (stdout +:+ stderr) in
      if S02.truthy out then JS.substring out 0 S02.OUTPUT_LIMIT else "(no output)" in
    match r with
    | Proc.LaunchFailed msg => ("Error: " +:+ msg, w')
    | Proc.TimedOut stdout stderr registered =>
        (if registered then "Error: Timeout (120s)" else answer stdout stderr, w')
    | Proc.Exited _ stdout stderr => (answer stdout stderr, w')
    end.

(** [typeof x.command === "string" ? x.command : String(x.command || "")];
    reading [command] off [null] throws. *)
Definition commandOf (x : JSON.value) : JS.Completion string :=
  match x with
  | JSON.JNull => inl (S02.typeError "null is not an object")
  | _ =>
      match JSON.get x "command" with
      | Some (JSON.JStr command) => inr command
      | Some v => if falsy v then inr EmptyString else toString v
      | None => inr EmptyString
      end
  end.

Definition echoCommand (command : string) : string :=
  ESC +:+ "[33m$ " +:+ command +:+ ESC +:+ "[0m".

(** *** The OpenAI variant *)

(** The arguments of a call: what [JSON.parse] gives, or an empty command
    where it throws. *)
Definition argumentsOf (tc : S02.ToolCall) : JSON.value :=
  match JSON_parse (S02.fn_arguments tc) with
  | Some args => args
  | None => JSON.JObj [("command", JSON.JStr EmptyString)]
  end.

(** The [for] loop: a call named [bash] is run and answered, any other is
    passed over. *)
Fixpoint forToolCalls (tcs : list S02.ToolCall) (st : S02.State)
  : option JS.Error * S02.State :=
  match tcs with
  | [] => (None, st)
  | tc :: rest =>
      if decide (S02.fn_name tc = "bash") then
        match commandOf (argumentsOf tc) with
        | inl e => (Some e, st)
        | inr command =>
            let '(output, w') := runBash command (S02.world st) in
            forToolCalls rest
              (S02.mkState w'
                 (S02.messages st ++ [S02.ToolResult (S02.call_id tc) output])
                 (S02.console st ++ [echoCommand command; JS.substring output 0 200])
                 (S02.requests st))
        end
      else forToolCalls rest st
  end.

Section OpenAI.
Variable llm : list S02.Message -> JS.Completion S02.Response.

Fixpoint agentLoop (fuel : nat) (st : S02.State) : S02.Outcome :=
  match fuel with
  | O => S02.OutOfFuel st
  | S fuel' =>
      let sent := S02.requests st ++ [S02.messages st] in
      match llm (S02.messages st) with
      | inl e => S02.Raised e (S02.mkState (S02.world st) (S02.messages st) (S02.console st) sent)
      | inr response =>
          let message := S02.Assistant (S02.r_content response) (S02.r_tool_calls response) in
          let st' := S02.mkState (S02.world st) (S02.messages st ++ [message])
                       (S02.console st) sent in
          match S02.r_tool_calls response with
          | Some tcs =>
              if negb (bool_decide (S02.finish_reason response = "tool_calls"))
              then S02.Returned st'
              else match forToolCalls tcs st' with
                   | (Some e, st'') => S02.Raised e st''
                   | (None, st'') => agentLoop fuel' st''
                   end
          | None => S02.Returned st'
          end
      end
  end.
End OpenAI.

(** *** The Anthropic variant *)

(** The [for] loop over the blocks of the reply: every [tool_use] block is
    run as a shell command, whatever its name; the results are collected in
    the order of the blocks. *)
Fixpoint forBlocks (bs : list Block) (results : list Block)
    (w : S02.World) (out : list string)
  : option JS.Error * list Block * S02.World * list string :=
  match bs with
  | [] => (None, results, w, out)
  | ToolUse id _ input :: rest =>
      match commandOf input with
      | inl e => (Some e, results, w, out)
      | inr command =>
          let '(output, w') := runBash command w in
          forBlocks rest (results ++ [ToolResultBlock id output]) w'
            (out ++ [echoCommand command; JS.substring output 0 200])
      end
  | _ :: rest => forBlocks rest results w out
  end.

Section Anthropic.
Variable llm : list MessageParam -> JS.Completion Reply.

Fixpoint agentLoopAnthropic (fuel : nat) (st : State) : Outcome :=
  match fuel with
  | O => OutOfFuel st
  | S fuel' =>
      let sent := requests st ++ [messages st] in
      match llm (messages st) with
      | inl e => Raised e (mkState (world st) (messages st) (console st) sent)
      | inr reply =>
          let pushed := messages st ++ [mkMessageParam "assistant" (Blocks (blocks reply))] in
          if negb (bool_decide (stop_reason reply = "tool_use"))
          then Returned (mkState (world st) pushed (console st) sent)
          else
            match forBlocks (blocks reply) [] (world st) (console st) with
            | (Some e, _, w', out) => Raised e (mkState w' pushed out sent)
            | (None, results, w', out) =>
                agentLoopAnthropic fuel'
                  (mkState w' (pushed ++ [mkMessageParam "user" (Blocks results)]) out sent)
            end
      end
  end.
End Anthropic.
End Variants.

(** *** The sessions *)

Section Sessions.
Variable WORKDIR : string.
Variable shell : string -> FS.t -> Proc.result * FS.t.
Variable JSON_parse : string -> option JSON.value.
Variable toString : JSON.value -> JS.Completion string.

Definition SYSTEM : string :=
  "You are a coding agent at " +:+ WORKDIR
  +:+ ". Use bash to solve tasks. Act, don't explain.".

(** What [main] of the OpenAI variant prints after a query: the content of
    the last message when that is an assistant turn with a content. *)
Definition lastAnswer (conversation : list S02.Message) (out : list string)
  : list string :=
  match last conversation with
  | Some (S02.Assistant content _) => S02.logContent content out
  | _ => out
  end.

Section OpenAISession.
Variable llm : list S02.Message -> JS.Completion S02.Response.

(** The [for await] loop of [main], OpenAI variant: what the loop throws is
    caught, reported on the error stream (not recorded) and the next line is
    read. *)
Fixpoint mainLoop (fuel : nat) (lines : list string) (st : S02.State) : S02.Outcome :=
  match lines with
  | [] => S02.Returned st
  | line :: rest =>
      if S02.isExit line then S02.Returned st
      else
        match agentLoop shell JSON_parse toString llm fuel
                (S02.mkState (S02.world st)
                   (S02.messages st ++ [S02.User (JS.trim line)])
                   (S02.console st) (S02.requests st)) with
        | S02.Returned st' =>
            mainLoop fuel rest
              (S02.mkState (S02.world st') (S02.messages st')
                 (lastAnswer (S02.messages st') (S02.console st') ++ [EmptyString])
                 (S02.requests st'))
        | S02.Raised _ st' =>
            mainLoop fuel rest
              (S02.mkState (S02.world st') (S02.messages st')
                 (S02.console st' ++ [EmptyString]) (S02.requests st'))
        | S02.OutOfFuel st' => S02.OutOfFuel st'
        end
  end.

(** [main()]: the history starts with the system prompt. *)
Definition main (fuel : nat) (lines : list string) (w : S02.World) : S02.Outcome :=
  mainLoop fuel lines (S02.mkState w [S02.System SYSTEM] [] []).
End OpenAISession.

Section AnthropicSession.
Variable llm : list MessageParam -> JS.Completion Reply.

(** The texts of the text blocks of the last message, when its content is a
    list of blocks. *)
Definition lastTexts (conversation : list MessageParam) : list string :=
  match last conversation with
  | Some (mkMessageParam _ (Blocks bs)) =>
      omap (fun b => match b with TextBlock text => Some text | _ => None end) bs
  | _ => []
  end.

Fixpoint mainLoopAnthropic (fuel : nat) (lines : list string) (st : State) : Outcome :=
  match lines with
  | [] => Returned st
  | line :: rest =>
      if S02.isExit line then Returned st
      else
        match agentLoopAnthropic shell toString llm fuel
                (mkState (world st)
                   (messages st ++ [mkMessageParam "user" (Text (JS.trim line))])
                   (console st) (requests st)) with
        | Returned st' =>
            mainLoopAnthropic fuel rest
              (mkState (world st') (messages st')
                 (console st' ++ lastTexts (messages st') ++ [EmptyString])
                 (requests st'))
        | Raised _ st' =>
            mainLoopAnthropic fuel rest
              (mkState (world st') (messages st')
                 (console st' ++ [EmptyString]) (requests st'))
        | OutOfFuel st' => OutOfFuel st'
        end
  end.

Definition mainAnthropic (fuel : nat) (lines : list string) (w : S02.World) : Outcome :=
  mainLoopAnthropic fuel lines (mkState w [] [] []).
End AnthropicSession.
End Sessions.

End S01.

(** ** Worlds and collaborators the examples run in *)

Module Fixtures.

Definition WORKDIR : string := "/home/agent/project".

(** A project with one file of three lines, next to a directory whose name
    starts with the name of the project. *)
Definition disk : FS.t :=
  <["/home/agent/project/notes/a.txt" := FS.File ("one" +:+ JS.nl +:+ "two" +:+ JS.nl +:+ "three")]>
  (<["/home/agent/project/notes" := FS.Dir]>
  (<["/home/agent/project-secrets/key.txt" := FS.File "hunter2"]>
  (<["/home/agent/project-secrets" := FS.Dir]>
  (<["/home/agent/project" := FS.Dir]>
  (<["/home/agent" := FS.Dir]>
  (<["/home" := FS.Dir]> ∅)))))).

Definition w0 : S02.World := S02.mkWorld disk [].

(** A shell where every command prints an empty line and exits with 1. *)
Definition blankShell (command : string) (fs : FS.t) : Proc.result * FS.t :=
  (Proc.Exited 1 JS.nl EmptyString, fs).

(** A shell where every command prints [ok] and exits with 0. *)
Definition okShell (command : string) (fs : FS.t) : Proc.result * FS.t :=
  (Proc.Exited 0 ("ok" +:+ JS.nl) EmptyString, fs).

(** A shell where every command complains and exits with 2. *)
Definition failShell (command : string) (fs : FS.t) : Proc.result * FS.t :=
  (Proc.Exited 2 EmptyString ("no such file" +:+ JS.nl), fs).

(** A conversation that starts with one query of the operator. *)
Definition st0 : S02.State :=
  S02.mkState w0 [S02.User "list the files"] [] [].

(** A model that asks for the tool calls [tcs] with finish reason [finish]
    when the conversation ends on a user turn, and gives a last answer
    otherwise. *)
Definition model (tcs : list S02.ToolCall) (finish : string)
    (conversation : list S02.Message) : JS.Completion S02.Response :=
  match last conversation with
  | Some (S02.User _) => inr (S02.mkResponse None (Some tcs) finish)
  | _ => inr (S02.mkResponse (Some "done") None "stop")
  end.

(** File executors that answer arguments outside their signature with one
    fixed error text. *)
Definition untyped (t : S02.Tool) (args : JSON.value) (w : S02.World)
    : string * S02.World :=
  ("Error: invalid arguments", w).

Definition lsArguments : string :=
  "{" +:+ JSON.quoted "command" +:+ ": " +:+ JSON.quoted "ls" +:+ "}".

Definition bashLs : S02.ToolCall := S02.mkToolCall "call_1" "bash" lsArguments.
Definition bashNoCommand : S02.ToolCall := S02.mkToolCall "call_1" "bash" "{}".
Definition bashCutShort : S02.ToolCall := S02.mkToolCall "call_1" "bash" "{".
Definition unknownTool : S02.ToolCall := S02.mkToolCall "call_2" "list_dir" "{}".
Definition unknownCutShort : S02.ToolCall := S02.mkToolCall "call_1" "list_dir" "{".
Definition toStringTool : S02.ToolCall := S02.mkToolCall "call_1" "toString" "{}".

(** The loop of [s02_tool_use] over the collaborators above. *)
Definition run (tcs : list S02.ToolCall) (finish : string) (fuel : nat)
    (st : S02.State) : S02.Outcome :=
  S02.agentLoop WORKDIR okShell JSON.parse (model tcs finish) untyped fuel st.

(** A [write_file] call and a [read_file] call on one path. *)
Definition writeNote : S02.ToolCall :=
  S02.mkToolCall "call_1" "write_file"
    ("{" +:+ JSON.quoted "path" +:+ ": " +:+ JSON.quoted "notes/todo.txt" +:+ ", "
     +:+ JSON.quoted "content" +:+ ": " +:+ JSON.quoted "buy milk" +:+ "}").

Definition readNote : S02.ToolCall :=
  S02.mkToolCall "call_2" "read_file"
    ("{" +:+ JSON.quoted "path" +:+ ": " +:+ JSON.quoted "notes/todo.txt" +:+ "}").

(** [String(v)] standing for itself on the values that are no objects, and
    throwing on the rest. *)
Definition toString (v : JSON.value) : JS.Completion string :=
  match v with
  | JSON.JBool true => inr "true"
  | JSON.JNum m 0 => inr (JS.numberToString m)
  | _ => inl (S02.typeError "Cannot convert object to primitive value")
  end.

(** An Anthropic model that asks for the blocks [bs] with stop reason
    [stop] when the conversation ends on a text of the user, and gives a
    last answer otherwise. *)
Definition modelAnthropic (bs : list S01.Block) (stop : string)
    (conversation : list S01.MessageParam) : JS.Completion S01.Reply :=
  match last conversation with
  | Some (S01.mkMessageParam _ (S01.Text _)) => inr (S01.mkReply bs stop)
  | _ => inr (S01.mkReply [S01.TextBlock "done"] "end_turn")
  end.

Definition lsInput : JSON.value := JSON.JObj [("command", JSON.JStr "ls")].

End Fixtures.

(** * Properties *)

(** ** The primitives on small inputs *)

Example replace_first_only : JS.replace "a-b-c" "-" "+" = "a+b-c".
Proof. reflexivity. Qed.

Example replace_matched_text : JS.replace "abc" "b" "[$&$&]" = "a[bb]c".
Proof. reflexivity. Qed.

Example split_trailing_line : JS.split JS.LF ("a" +:+ JS.nl +:+ "b" +:+ JS.nl) = ["a"; "b"; ""].
Proof. reflexivity. Qed.

Example trim_both_ends : JS.trim ("  hi " +:+ JS.nl) = "hi".
Proof. reflexivity. Qed.

Example resolve_relative : Path.resolve "/work" "notes/./a.txt" = "/work/notes/a.txt".
Proof. reflexivity. Qed.

Example resolve_parent : Path.resolve "/work" "../../etc/passwd" = "/etc/passwd".
Proof. reflexivity. Qed.

Example resolve_absolute : Path.resolve "/work" "/tmp//x/" = "/tmp/x".
Proof. reflexivity. Qed.

Example resolve_empty : Path.resolve "/work" "" = "/work".
Proof. reflexivity. Qed.

Example safePath_rejects_parent :
  S02.safePath "/work" "../etc/passwd"
    = inl (JS.mkError "Error" "Path escapes workspace: ../etc/passwd").
Proof. reflexivity. Qed.

Example parse_arguments :
  JSON.parse Fixtures.lsArguments = Some (JSON.JObj [("command", JSON.JStr "ls")]).
Proof. reflexivity. Qed.

Example parse_cut_short : JSON.parse "{" = None.
Proof. reflexivity. Qed.

Example write_creates_directories :
  let r := S02.runWrite Fixtures.WORKDIR "docs/new/b.txt" "hello" Fixtures.w0 in
  fst r = "Wrote 5 bytes to docs/new/b.txt" /\
  S02.fs (snd r) !! "/home/agent/project/docs/new" = Some FS.Dir /\
  FS.readFile (S02.fs (snd r)) "/home/agent/project/docs/new/b.txt" = inr "hello".
Proof. repeat split; vm_compute; reflexivity. Qed.

Example bash_trims_output :
  S02.runBash Fixtures.okShell "echo ok" Fixtures.w0
    = ("ok", S02.mkWorld Fixtures.disk ["echo ok"]).
Proof. vm_compute. reflexivity. Qed.

(** ** Strings *)

Section StringFacts.
Implicit Types s pat pre post : string.

Lemma append_nil_l s : EmptyString +:+ s = s.
Proof. reflexivity. Qed.

Lemma append_cons c s t : String c s +:+ t = String c (s +:+ t).
Proof. reflexivity. Qed.

Lemma append_assoc s1 s2 s3 : (s1 +:+ s2) +:+ s3 = s1 +:+ (s2 +:+ s3).
Proof. induction s1 as [|c s1 IH]; [done|]. by rewrite !append_cons, IH. Qed.

Lemma length_append s1 s2 :
  String.length (s1 +:+ s2) = (String.length s1 + String.length s2)%nat.
Proof. induction s1 as [|c s1 IH]; [done|]. rewrite append_cons. simpl. by rewrite IH. Qed.

Lemma take_append pre s : JS.take (String.length pre) (pre +:+ s) = pre.
Proof.
  induction pre as [|c pre IH]; [by destruct s|].
  rewrite append_cons. simpl. by rewrite IH.
Qed.

Lemma drop_append pre s : JS.drop (String.length pre) (pre +:+ s) = s.
Proof.
  induction pre as [|c pre IH]; [by destruct s|].
  rewrite append_cons. simpl. exact IH.
Qed.

Lemma startsWith_append pat post : JS.startsWith (pat +:+ post) pat = true.
Proof.
  induction pat as [|c pat IH]; [reflexivity|].
  rewrite append_cons. simpl. by rewrite Ascii.eqb_refl.
Qed.

Lemma startsWith_inv s pat :
  JS.startsWith s pat = true -> s = pat +:+ JS.drop (String.length pat) s.
Proof.
  revert s; induction pat as [|c pat IH]; intros s H; simpl in *.
  - by destruct s.
  - destruct s as [|d s]; [done|].
    destruct (Ascii.eqb c d) eqn:E; [|done].
    apply Ascii.eqb_eq in E as ->. rewrite append_cons. f_equal. by apply IH.
Qed.

Lemma indexOf_unfold s pat :
  JS.indexOf s pat =
    if JS.startsWith s pat then Some 0%nat
    else match s with
         | EmptyString => None
         | String _ s' => S <$> JS.indexOf s' pat
         end.
Proof. by destruct s. Qed.

(** An occurrence anywhere is found. *)
Lemma indexOf_occurrence pre pat post :
  exists n, JS.indexOf (pre +:+ pat +:+ post) pat = Some n /\ (n <= String.length pre)%nat.
Proof.
  induction pre as [|c pre [n [IH Hn]]].
  - exists 0%nat. rewrite indexOf_unfold, append_nil_l.
    by rewrite startsWith_append.
  - rewrite indexOf_unfold, append_cons.
    destruct (JS.startsWith _ _).
    + exists 0%nat; split; [done | lia].
    + exists (S n). rewrite IH. split; [done | simpl; lia].
Qed.

(** What is found is an occurrence. *)
Lemma indexOf_Some s pat n :
  JS.indexOf s pat = Some n ->
  s = JS.take n s +:+ pat +:+ JS.drop (n + String.length pat) s /\
  String.length (JS.take n s) = n.
Proof.
  revert n; induction s as [|c s IH]; intros n; rewrite indexOf_unfold.
  - destruct (JS.startsWith _ _) eqn:E; [|done].
    intros [= <-]. destruct pat; [done | simpl in E; done].
  - destruct (JS.startsWith _ _) eqn:E.
    + intros [= <-]. split; [|done]. simpl JS.take. rewrite append_nil_l.
      by apply startsWith_inv.
    + destruct (JS.indexOf s pat) as [m|] eqn:Em; [|done].
      intros [= <-]. destruct (IH m eq_refl) as [Hs Hl].
      simpl. split; [by rewrite append_cons, <- Hs | by rewrite Hl].
Qed.

Lemma includes_true_iff s pat :
  JS.includes s pat = true <-> exists pre post, s = pre +:+ pat +:+ post.
Proof.
  unfold JS.includes. split.
  - destruct (JS.indexOf s pat) as [n|] eqn:E; [|done].
    intros _. apply indexOf_Some in E as [E _]. eauto.
  - intros (pre & post & ->).
    destruct (indexOf_occurrence pre pat post) as (n & -> & _). done.
Qed.

Lemma includes_false_iff s pat :
  JS.includes s pat = false <-> ~ exists pre post, s = pre +:+ pat +:+ post.
Proof.
  rewrite <- includes_true_iff. by destruct (JS.includes s pat).
Qed.
End StringFacts.

(** ** The executors *)

Section ExecutorFacts.
Variable WORKDIR : string.
Variable shell : string -> FS.t -> Proc.result * FS.t.
Implicit Types (w : S02.World) (p fp : string).

Lemma truthy_iff s : S02.truthy s = true <-> s <> EmptyString.
Proof.
  unfold S02.truthy. by destruct (bool_decide_reflect (s = EmptyString)).
Qed.

(** X1. A path [safePath] rejects is answered with the error by all three
    file executors, and the world stays as it is. *)
Lemma rejected_path_untouched p e limit content oldText newText w :
  S02.safePath WORKDIR p = inl e ->
  S02.runRead WORKDIR p limit w = ("Error: Path escapes workspace: " +:+ p, w) /\
  S02.runWrite WORKDIR p content w = ("Error: Path escapes workspace: " +:+ p, w) /\
  S02.runEdit WORKDIR p oldText newText w = ("Error: Path escapes workspace: " +:+ p, w).
Proof.
  intros H. unfold S02.runRead, S02.runWrite, S02.runEdit. rewrite H.
  unfold S02.safePath in H. destruct (negb _); [|done].
  by injection H as <-.
Qed.

Lemma blocked_iff command :
  existsb (fun d => JS.includes command d) S02.dangerous = true <->
  exists d pre post, In d S02.dangerous /\ command = pre +:+ d +:+ post.
Proof.
  rewrite existsb_exists. split.
  - intros (d & Hd & Hi). apply includes_true_iff in Hi as (pre & post & ->). eauto.
  - intros (d & pre & post & Hd & ->). exists d. split; [done|].
    apply includes_true_iff; eauto.
Qed.
End ExecutorFacts.

(** C7. A command that contains a string of the denylist is answered with
    [Error: Dangerous command blocked] by [runBash], in [s02_tool_use] and in
    both [s01_agent_loop] variants, whatever the shell would do: the world
    comes back as it was, no command handed to the shell and no file
    touched. *)
Theorem runBash_denylist shell command (w : S02.World) :
  (exists d pre post, In d S02.dangerous /\ command = pre +:+ d +:+ post) ->
  S02.runBash shell command w = ("Error: Dangerous command blocked", w) /\
  S01.runBash shell command w = ("Error: Dangerous command blocked", w).
Proof.
  intros H%blocked_iff. unfold S02.runBash, S01.runBash. by rewrite H.
Qed.

Lemma runBash_denylist_witness :
  S02.runBash Fixtures.okShell "cd /tmp && sudo reboot" Fixtures.w0
    = ("Error: Dangerous command blocked", Fixtures.w0) /\
  S01.runBash Fixtures.okShell "cd /tmp && sudo reboot" Fixtures.w0
    = ("Error: Dangerous command blocked", Fixtures.w0).
Proof.
  apply (runBash_denylist Fixtures.okShell "cd /tmp && sudo reboot" Fixtures.w0).
  exists "sudo", "cd /tmp && ", " reboot". split; [simpl; tauto | reflexivity].
Defined.

(** C5. When the text of the file that [p] names has no occurrence of
    [old_text], [runEdit] answers [Error: Text not found in <p>] and the
    world, so the file, is what it was. *)
Theorem runEdit_text_not_found WORKDIR p fp content oldText newText (w : S02.World) :
  S02.safePath WORKDIR p = inr fp ->
  FS.readFile (S02.fs w) fp = inr content ->
  (~ exists pre post, content = pre +:+ oldText +:+ post) ->
  S02.runEdit WORKDIR p oldText newText w = ("Error: Text not found in " +:+ p, w).
Proof.
  intros Hp Hr Hn%includes_false_iff. unfold S02.runEdit.
  by rewrite Hp, Hr, Hn.
Qed.

Lemma runEdit_text_not_found_witness :
  S02.runEdit Fixtures.WORKDIR "notes/a.txt" "four" "4" Fixtures.w0
    = ("Error: Text not found in notes/a.txt", Fixtures.w0).
Proof.
  apply (runEdit_text_not_found Fixtures.WORKDIR "notes/a.txt"
           "/home/agent/project/notes/a.txt"
           ("one" +:+ JS.nl +:+ "two" +:+ JS.nl +:+ "three")).
  - vm_compute. reflexivity.
  - vm_compute. reflexivity.
  - apply includes_false_iff. vm_compute. reflexivity.
Defined.

(** C10, as the code has it. A command that passes the denylist and exits
    with a status other than 0, with output on the two streams that is not
    blank, is answered with that output alone, trimmed and cut at 50,000
    characters; the same two streams under exit status 0 give the same
    answer, so the answer does not tell the failure. *)
Theorem runBash_failure_output shell command code out err fs' (w : S02.World) :
  existsb (fun d => JS.includes command d) S02.dangerous = false ->
  shell command (S02.fs w) = (Proc.Exited code out err, fs') ->
  code <> 0%Z ->
  JS.trim (out +:+ err) <> EmptyString ->
  S02.runBash shell command w
    = (JS.substring (JS.trim (out +:+ err)) 0 S02.OUTPUT_LIMIT,
       S02.mkWorld fs' (S02.procs w ++ [command])) /\
  forall shell0,
    shell0 command (S02.fs w) = (Proc.Exited 0 out err, fs') ->
    S02.runBash shell0 command w = S02.runBash shell command w.
Proof.
  intros Hd Hs Hc Ht.
  assert (S02.runBash shell command w
          = (JS.substring (JS.trim (out +:+ err)) 0 S02.OUTPUT_LIMIT,
             S02.mkWorld fs' (S02.procs w ++ [command]))) as Hrun.
  { unfold S02.runBash. rewrite Hd, Hs. simpl.
    destruct (Z.eqb_spec code 0) as [?|_]; [done|]. simpl.
    apply truthy_iff in Ht. by rewrite Ht. }
  split; [exact Hrun|].
  intros shell0 Hs0. rewrite Hrun. unfold S02.runBash. rewrite Hd, Hs0. simpl.
  apply truthy_iff in Ht. by rewrite Ht.
Qed.

Lemma runBash_failure_output_witness :
  S02.runBash Fixtures.failShell "cat missing.txt" Fixtures.w0
    = ("no such file", S02.mkWorld Fixtures.disk ["cat missing.txt"]) /\
  forall shell0,
    shell0 "cat missing.txt" Fixtures.disk
      = (Proc.Exited 0 EmptyString ("no such file" +:+ JS.nl), Fixtures.disk) ->
    S02.runBash shell0 "cat missing.txt" Fixtures.w0
      = S02.runBash Fixtures.failShell "cat missing.txt" Fixtures.w0.
Proof.
  apply (runBash_failure_output Fixtures.failShell "cat missing.txt" 2
           EmptyString ("no such file" +:+ JS.nl) Fixtures.disk Fixtures.w0).
  - vm_compute. reflexivity.
  - reflexivity.
  - lia.
  - vm_compute. discriminate.
Defined.

(** C10, as the claim has it, fails on output that is only white space: the
    command passes the denylist, exits with 1 and has printed a line feed,
    and the answer is the [Error:] text of the failure, not the trimmed
    output. *)
Lemma runBash_blank_output_counterexample :
  existsb (fun d => JS.includes "echo; exit 1" d) S02.dangerous = false /\
  Fixtures.blankShell "echo; exit 1" (S02.fs Fixtures.w0)
    = (Proc.Exited 1 JS.nl EmptyString, Fixtures.disk) /\
  JS.nl +:+ EmptyString <> EmptyString /\
  fst (S02.runBash Fixtures.blankShell "echo; exit 1" Fixtures.w0)
    = "Error: Command failed: echo; exit 1" +:+ JS.nl /\
  fst (S02.runBash Fixtures.blankShell "echo; exit 1" Fixtures.w0)
    <> JS.substring (JS.trim (JS.nl +:+ EmptyString)) 0 S02.OUTPUT_LIMIT.
Proof.
  repeat split; try (vm_compute; reflexivity); vm_compute; discriminate.
Qed.

(** ** Lines *)

Lemma split_cons sep s : exists l ls, JS.split sep s = l :: ls.
Proof.
  induction s as [|c s (l & ls & IH)]; simpl; [by eauto|].
  destruct (Ascii.eqb c sep); [by eauto|]. rewrite IH. eauto.
Qed.

Lemma join_cons_cons sep p q ps :
  JS.join sep (p :: q :: ps) = p +:+ sep +:+ JS.join sep (q :: ps).
Proof. reflexivity. Qed.

(** Joining the lines of a text with line feeds gives the text back. *)
Lemma join_split text : JS.join JS.nl (JS.split JS.LF text) = text.
Proof.
  induction text as [|c s IH]; [done|]. simpl JS.split.
  destruct (split_cons JS.LF s) as (l & ls & E). rewrite E in *.
  destruct (Ascii.eqb_spec c JS.LF) as [->|_].
  - rewrite join_cons_cons, IH. reflexivity.
  - destruct ls as [|q ls].
    + simpl in *. by rewrite IH.
    + rewrite join_cons_cons in *. rewrite append_cons. by rewrite IH.
Qed.

(** C6, as the code has it. On every file that is there, [runRead] with
    limit 0 answers as it does with no limit: the text of the file, cut at
    50,000 characters. With a limit above 0 and below the number of lines,
    the lines being the pieces of the text between its line feeds, it
    answers the first [limit] lines and then the line [... (k more lines)],
    [k] the number of lines left out, the whole cut at 50,000 characters.
    The world is not changed. *)
Theorem runRead_limit WORKDIR p fp text (w : S02.World) :
  S02.safePath WORKDIR p = inr fp ->
  FS.readFile (S02.fs w) fp = inr text ->
  S02.runRead WORKDIR p (Some 0%Z) w = (JS.substring text 0 S02.OUTPUT_LIMIT, w) /\
  S02.runRead WORKDIR p None w = (JS.substring text 0 S02.OUTPUT_LIMIT, w) /\
  forall limit : Z,
    (0 < limit < Z.of_nat (length (JS.split JS.LF text)))%Z ->
    S02.runRead WORKDIR p (Some limit) w
      = (JS.substring
           (JS.join JS.nl
              (firstn (Z.to_nat limit) (JS.split JS.LF text)
               ++ ["... ("
                   +:+ JS.numberToString (Z.of_nat (length (JS.split JS.LF text)) - limit)
                   +:+ " more lines)"]))
           0 S02.OUTPUT_LIMIT, w).
Proof.
  intros Hp Hr. unfold S02.runRead. rewrite Hp, Hr.
  repeat split.
  - simpl. by rewrite join_split.
  - by rewrite join_split.
  - intros limit Hl.
    destruct (Z.eqb_spec limit 0) as [?|_]; [lia|].
    destruct (Z.ltb_spec limit (Z.of_nat (length (JS.split JS.LF text)))) as [_|?]; [|lia].
    simpl. unfold S02.sliceTo.
    destruct (Z.ltb_spec limit 0) as [?|_]; [lia|]. done.
Qed.

Lemma runRead_limit_witness :
  S02.runRead Fixtures.WORKDIR "notes/a.txt" (Some 0%Z) Fixtures.w0
    = ("one" +:+ JS.nl +:+ "two" +:+ JS.nl +:+ "three", Fixtures.w0) /\
  S02.runRead Fixtures.WORKDIR "notes/a.txt" None Fixtures.w0
    = ("one" +:+ JS.nl +:+ "two" +:+ JS.nl +:+ "three", Fixtures.w0) /\
  S02.runRead Fixtures.WORKDIR "notes/a.txt" (Some 2%Z) Fixtures.w0
    = ("one" +:+ JS.nl +:+ "two" +:+ JS.nl +:+ "... (1 more lines)", Fixtures.w0).
Proof.
  destruct (runRead_limit Fixtures.WORKDIR "notes/a.txt" "/home/agent/project/notes/a.txt"
              ("one" +:+ JS.nl +:+ "two" +:+ JS.nl +:+ "three") Fixtures.w0)
    as (Hzero & Hnone & Hlimit).
  - vm_compute. reflexivity.
  - vm_compute. reflexivity.
  - split; [exact Hzero|]. split; [exact Hnone|].
    apply (Hlimit 2%Z). vm_compute. split; reflexivity.
Defined.

(** A file of one line, written and then read with limit 0: the line comes
    back. *)
Example runRead_limit_zero_one_line :
  fst (S02.runRead Fixtures.WORKDIR "notes/h.txt" (Some 0%Z)
         (snd (S02.runWrite Fixtures.WORKDIR "notes/h.txt" "hello" Fixtures.w0)))
    = "hello".
Proof. vm_compute. reflexivity. Qed.

(** C6, as the claim has it, fails at limit 0: the file has three lines, and
    the answer is the three lines, not the line [... (3 more lines)] that
    would report them left out. *)
Lemma runRead_limit_zero_counterexample :
  FS.readFile (S02.fs Fixtures.w0) "/home/agent/project/notes/a.txt"
    = inr ("one" +:+ JS.nl +:+ "two" +:+ JS.nl +:+ "three") /\
  fst (S02.runRead Fixtures.WORKDIR "notes/a.txt" (Some 0%Z) Fixtures.w0)
    = "one" +:+ JS.nl +:+ "two" +:+ JS.nl +:+ "three" /\
  fst (S02.runRead Fixtures.WORKDIR "notes/a.txt" (Some 0%Z) Fixtures.w0)
    <> "... (3 more lines)".
Proof.
  repeat split; try (vm_compute; reflexivity); vm_compute; discriminate.
Qed.

(** ** Replacement *)

(** A template without a dollar stands for itself. *)
Lemma getSubstitution_plain matched before after template :
  JS.includes template "$" = false ->
  JS.getSubstitution matched before after template = template.
Proof.
  induction template as [|c t IH]; [done|].
  unfold JS.includes. rewrite indexOf_unfold. cbn [JS.startsWith].
  rewrite (Ascii.eqb_sym "$" c).
  destruct (Ascii.eqb c "$") eqn:E; [done|].
  intros H. cbn [JS.getSubstitution]. rewrite E. f_equal. apply IH.
  unfold JS.includes. by destruct (JS.indexOf t "$").
Qed.

(** [replace] at the first occurrence, for a replacement without a dollar:
    what is before and what is after stays, and no occurrence starts
    earlier. *)
Lemma replace_first_plain content pat repl n :
  JS.indexOf content pat = Some n ->
  JS.includes repl "$" = false ->
  JS.replace content pat repl
    = JS.take n content +:+ repl +:+ JS.drop (n + String.length pat) content /\
  content = JS.take n content +:+ pat +:+ JS.drop (n + String.length pat) content /\
  forall pre post, content = pre +:+ pat +:+ post -> (n <= String.length pre)%nat.
Proof.
  intros Hi Hd. unfold JS.replace. rewrite Hi, getSubstitution_plain by done.
  split; [done|]. split; [by apply indexOf_Some in Hi as [? _]|].
  intros pre post ->. destruct (indexOf_occurrence pre pat post) as (m & Hm & Hle).
  congruence.
Qed.

(** The empty pattern occurs at the very start. *)
Lemma replace_empty_plain content repl :
  JS.includes content EmptyString = true /\
  (JS.includes repl "$" = false ->
   JS.replace content EmptyString repl = repl +:+ content).
Proof.
  split; [by destruct content|]. intros Hd.
  unfold JS.replace. replace (JS.indexOf content EmptyString) with (Some 0%nat)
    by (by destruct content).
  rewrite getSubstitution_plain by done. by destruct content.
Qed.

(** [runEdit] on a file it can read, where [old_text] is first found at
    [n] and the new text has no dollar in it. *)
Lemma runEdit_replaces WORKDIR p fp content oldText newText n (w : S02.World) :
  S02.safePath WORKDIR p = inr fp ->
  FS.readFile (S02.fs w) fp = inr content ->
  JS.indexOf content oldText = Some n ->
  JS.includes newText "$" = false ->
  S02.runEdit WORKDIR p oldText newText w
    = ("Edited " +:+ p,
       S02.mkWorld
         (<[fp := FS.File (JS.take n content +:+ newText
                           +:+ JS.drop (n + String.length oldText) content)]>
            (S02.fs w))
         (S02.procs w)).
Proof.
  intros Hp Hr Hi Hd. unfold S02.runEdit. rewrite Hp, Hr.
  unfold JS.includes. rewrite Hi. simpl negb. cbv iota.
  destruct (replace_first_plain content oldText newText n Hi Hd) as (-> & _ & _).
  unfold FS.readFile in Hr. unfold FS.writeFile.
  destruct (bool_decide (fp = "/")); [done|].
  destruct (S02.fs w !! fp) as [[c|]|]; done.
Qed.

(** X6. With a new text that has no dollar in it, [runEdit] on a file whose
    text is [pre], then the first occurrence of [old_text], then [post],
    writes [pre], the new text and [post] back. *)
Lemma runEdit_first_occurrence_plain WORKDIR p fp pre oldText post newText
    (w : S02.World) :
  S02.safePath WORKDIR p = inr fp ->
  FS.readFile (S02.fs w) fp = inr (pre +:+ oldText +:+ post) ->
  (forall pre' post',
     pre +:+ oldText +:+ post = pre' +:+ oldText +:+ post' ->
     (String.length pre <= String.length pre')%nat) ->
  JS.includes newText "$" = false ->
  S02.runEdit WORKDIR p oldText newText w
    = ("Edited " +:+ p,
       S02.mkWorld (<[fp := FS.File (pre +:+ newText +:+ post)]> (S02.fs w))
         (S02.procs w)).
Proof.
  intros Hp Hr Hfirst Hd.
  destruct (indexOf_occurrence pre oldText post) as (n & Hi & Hle).
  assert (n = String.length pre) as ->.
  { pose proof (indexOf_Some _ _ _ Hi) as [Hsplit Hn].
    apply Hfirst in Hsplit. lia. }
  rewrite (runEdit_replaces WORKDIR p fp _ oldText newText _ w Hp Hr Hi Hd).
  rewrite take_append.
  replace (JS.drop (String.length pre + String.length oldText)
             (pre +:+ oldText +:+ post)) with post; [done|].
  by rewrite <- append_assoc, <- length_append, drop_append.
Qed.

(** X7. With the empty [old_text] and a new text that has no dollar in it,
    [runEdit] succeeds on every file it can read and puts the new text in
    front of the old text. *)
Lemma runEdit_empty_old_text_plain WORKDIR p fp content newText (w : S02.World) :
  S02.safePath WORKDIR p = inr fp ->
  FS.readFile (S02.fs w) fp = inr content ->
  JS.includes newText "$" = false ->
  S02.runEdit WORKDIR p EmptyString newText w
    = ("Edited " +:+ p,
       S02.mkWorld (<[fp := FS.File (newText +:+ content)]> (S02.fs w)) (S02.procs w)).
Proof.
  intros Hp Hr Hd.
  rewrite (runEdit_replaces WORKDIR p fp content EmptyString newText 0 w Hp Hr);
    [| by destruct content | done].
  by destruct content.
Qed.

(** C4, evaluated where it fails. The second line of the file is [two];
    [runEdit] is asked to put [$$2] in its place and reports success, and
    the file then has [$2] there: the new text went through the replacement
    patterns of [String.prototype.replace] and was not written as it
    stands. *)
Theorem runEdit_dollar_in_new_text :
  let r := S02.runEdit Fixtures.WORKDIR "notes/a.txt" "two" "$$2" Fixtures.w0 in
  fst r = "Edited notes/a.txt" /\
  FS.readFile (S02.fs (snd r)) "/home/agent/project/notes/a.txt"
    = inr ("one" +:+ JS.nl +:+ "$2" +:+ JS.nl +:+ "three") /\
  "one" +:+ JS.nl +:+ "$2" +:+ JS.nl +:+ "three"
    <> "one" +:+ JS.nl +:+ "$$2" +:+ JS.nl +:+ "three".
Proof.
  repeat split; try (vm_compute; reflexivity). vm_compute. discriminate.
Qed.

(** C9, evaluated where it fails. With the empty [old_text] and the new text
    [$'], [runEdit] reports success and the file holds its old text twice:
    the pattern for the text after the match was expanded, and the two
    characters of the new text are not at the start of the file. *)
Theorem runEdit_empty_old_text_dollar :
  let r := S02.runEdit Fixtures.WORKDIR "notes/a.txt" EmptyString "$'" Fixtures.w0 in
  let old := "one" +:+ JS.nl +:+ "two" +:+ JS.nl +:+ "three" in
  fst r = "Edited notes/a.txt" /\
  FS.readFile (S02.fs (snd r)) "/home/agent/project/notes/a.txt" = inr (old +:+ old) /\
  old +:+ old <> "$'" +:+ old.
Proof.
  repeat split; try (vm_compute; reflexivity). vm_compute. discriminate.
Qed.

(** C1, evaluated where it fails. The working directory is
    [/home/agent/project] and the path leads to its neighbour
    [/home/agent/project-secrets], which is not under it; the text of the
    resolved path starts with the text of the working directory, so
    [safePath] lets it pass: [runRead] answers the file, and [runWrite] and
    [runEdit] change it. *)
Theorem safePath_prefix_escape :
  let p := "../project-secrets/key.txt" in
  let fp := "/home/agent/project-secrets/key.txt" in
  Path.resolve Fixtures.WORKDIR p = fp /\
  ~ Path.within Fixtures.WORKDIR fp /\
  S02.safePath Fixtures.WORKDIR p = inr fp /\
  S02.runRead Fixtures.WORKDIR p None Fixtures.w0 = ("hunter2", Fixtures.w0) /\
  (let r := S02.runWrite Fixtures.WORKDIR p "pwned" Fixtures.w0 in
   fst r = "Wrote 5 bytes to ../project-secrets/key.txt" /\
   FS.readFile (S02.fs (snd r)) fp = inr "pwned") /\
  (let r := S02.runEdit Fixtures.WORKDIR p "hunter" "" Fixtures.w0 in
   fst r = "Edited ../project-secrets/key.txt" /\
   FS.readFile (S02.fs (snd r)) fp = inr "2").
Proof.
  repeat split; try (vm_compute; reflexivity).
  intros [k Hk]. vm_compute in Hk. discriminate.
Qed.

(** ** The loop *)

Section LoopFacts.
Variable WORKDIR : string.
Variable shell : string -> FS.t -> Proc.result * FS.t.
Variable JSON_parse : string -> option JSON.value.
Variable llm : list S02.Message -> JS.Completion S02.Response.
Variable untyped : S02.Tool -> JSON.value -> S02.World -> string * S02.World.

Local Abbreviation invoke := (S02.invoke WORKDIR shell JSON_parse untyped).
Local Abbreviation forToolCalls := (S02.forToolCalls WORKDIR shell JSON_parse untyped).
Local Abbreviation agentLoop := (S02.agentLoop WORKDIR shell JSON_parse llm untyped).
Local Abbreviation SYSTEM := (S02.SYSTEM WORKDIR).
Local Abbreviation answered := (S02.answered WORKDIR shell JSON_parse untyped).

(** A name that is no property of the dispatch map, with arguments that
    are JSON, is answered with [Unknown tool: <name>]. *)
Lemma invoke_unknown tc args w :
  S02.TOOL_HANDLERS (S02.fn_name tc) = None ->
  JSON_parse (S02.fn_arguments tc) = Some args ->
  invoke tc w = (inr ("Unknown tool: " +:+ S02.fn_name tc), w).
Proof. intros Hh Hp. unfold S02.invoke. by rewrite Hp, Hh. Qed.

Lemma unknown_answered tc args :
  S02.TOOL_HANDLERS (S02.fn_name tc) = None ->
  JSON_parse (S02.fn_arguments tc) = Some args ->
  answered tc.
Proof. intros Hh Hp w. erewrite invoke_unknown by done. eauto. Qed.

(** A [bash] call whose arguments are an object with a string under
    [command] is answered. *)
Lemma bash_answered tc fields command :
  S02.fn_name tc = "bash" ->
  JSON_parse (S02.fn_arguments tc) = Some (JSON.JObj fields) ->
  JSON.getField fields "command" = Some (JSON.JStr command) ->
  answered tc.
Proof.
  intros Hn Hp Hc w. unfold S02.invoke. rewrite Hp, Hn.
  change (S02.TOOL_HANDLERS "bash") with (Some (S02.Own S02.Bash)).
  unfold S02.callHandler, S02.callOwn, S02.bashHandler, JSON.get.
  rewrite Hc. unfold S02.returns. eauto.
Qed.

(** A call of a file tool is answered as soon as its arguments are JSON
    other than [null]. *)
Lemma file_tool_answered tc t args :
  S02.TOOL_HANDLERS (S02.fn_name tc) = Some (S02.Own t) ->
  t <> S02.Bash ->
  JSON_parse (S02.fn_arguments tc) = Some args ->
  args <> JSON.JNull ->
  answered tc.
Proof.
  intros Hh Ht Hp Hn w. unfold S02.invoke. rewrite Hp, Hh.
  unfold S02.callHandler, S02.callOwn, S02.returns.
  destruct args; try done; destruct t; try done;
    repeat (match goal with |- context [match ?x with _ => _ end] => destruct x end);
    eauto.
Qed.

Lemma forToolCalls_requests tcs st :
  S02.requests (snd (forToolCalls tcs st)) = S02.requests st.
Proof.
  revert st; induction tcs as [|tc tcs IH]; intros st; [done|].
  simpl. destruct (invoke tc (S02.world st)) as [[e|output] w']; [done|].
  by rewrite IH.
Qed.

(** When every call is answered the [for] loop runs to its end and has
    pushed one tool turn per call, in the order of the calls, each under
    the identifier of its call. *)
Lemma forToolCalls_answered tcs st :
  Forall answered tcs ->
  exists outputs st',
    length outputs = length tcs /\
    forToolCalls tcs st = (None, st') /\
    S02.messages st'
      = (S02.messages st
         ++ zip_with S02.ToolResult (map S02.call_id tcs) outputs)%list /\
    S02.requests st' = S02.requests st.
Proof.
  intros H; revert st; induction H as [|tc tcs Htc _ IH]; intros st.
  - exists [], st. by rewrite app_nil_r.
  - destruct (Htc (S02.world st)) as (output & w' & Hi).
    simpl. rewrite Hi.
    edestruct IH as (outputs & st' & Hlen & -> & Hm & Hr).
    exists (output :: outputs), st'. repeat split.
    + simpl. by rewrite Hlen.
    + rewrite Hm. simpl. by rewrite <- app_assoc.
    + by rewrite Hr.
Qed.

(** Every run sends the conversation it starts with first. *)
Lemma agentLoop_first_request fuel st :
  exists later,
    S02.requests (S02.finalState (agentLoop (S fuel) st))
      = (S02.requests st ++ (S02.System SYSTEM :: S02.messages st) :: later)%list.
Proof.
  revert st; induction fuel as [|fuel IH]; intros st.
  - simpl. destruct (llm _) as [e|r]; [by exists []|].
    destruct (S02.r_tool_calls r) as [tcs|]; [|by exists []].
    destruct (negb _); [by exists []|].
    pose proof (forToolCalls_requests tcs
      (S02.mkState (S02.world st)
         (S02.messages st ++ [S02.Assistant (S02.r_content r) (Some tcs)])%list
         (S02.logContent (S02.r_content r) (S02.console st))
         (S02.requests st ++ [S02.System SYSTEM :: S02.messages st])%list)) as Hr.
    destruct (forToolCalls _ _) as [[e|] st'']; simpl in *; rewrite Hr; by exists [].
  - remember (S fuel) as n. simpl.
    destruct (llm _) as [e|r]; [by exists []|].
    destruct (S02.r_tool_calls r) as [tcs|]; [|by exists []].
    destruct (negb _); [by exists []|].
    pose proof (forToolCalls_requests tcs
      (S02.mkState (S02.world st)
         (S02.messages st ++ [S02.Assistant (S02.r_content r) (Some tcs)])%list
         (S02.logContent (S02.r_content r) (S02.console st))
         (S02.requests st ++ [S02.System SYSTEM :: S02.messages st])%list)) as Hr.
    destruct (forToolCalls _ _) as [[e|] st'']; simpl in Hr.
    + simpl. rewrite Hr. by exists [].
    + subst n. destruct (IH st'') as [later ->]. rewrite Hr.
      rewrite <- app_assoc. simpl. eauto.
Qed.
End LoopFacts.

(** C2, as the code has it. When the model answers with finish reason
    [tool_calls] and N tool calls, each of which is answered, the loop
    pushes the assistant turn and then exactly N tool turns, one per call, in
    the order of the calls and each under the identifier of its call; the
    next request to the model is the conversation with these turns in it. *)
Theorem dispatch_pairing WORKDIR shell JSON_parse llm untyped
    (st : S02.State) response tcs fuel :
  llm (S02.System (S02.SYSTEM WORKDIR) :: S02.messages st) = inr response ->
  S02.finish_reason response = "tool_calls" ->
  S02.r_tool_calls response = Some tcs ->
  Forall (S02.answered WORKDIR shell JSON_parse untyped) tcs ->
  exists outputs st' later,
    length outputs = length tcs /\
    S02.messages st'
      = (S02.messages st
         ++ S02.Assistant (S02.r_content response) (Some tcs)
            :: zip_with S02.ToolResult (map S02.call_id tcs) outputs)%list /\
    S02.agentLoop WORKDIR shell JSON_parse llm untyped (S (S fuel)) st
      = S02.agentLoop WORKDIR shell JSON_parse llm untyped (S fuel) st' /\
    S02.requests
      (S02.finalState (S02.agentLoop WORKDIR shell JSON_parse llm untyped (S (S fuel)) st))
      = (S02.requests st
         ++ [S02.System (S02.SYSTEM WORKDIR) :: S02.messages st;
             S02.System (S02.SYSTEM WORKDIR) :: S02.messages st']
         ++ later)%list.
Proof.
  intros Hllm Hfin Htcs Hans.
  set (st1 := S02.mkState (S02.world st)
                (S02.messages st ++ [S02.Assistant (S02.r_content response) (Some tcs)])%list
                (S02.logContent (S02.r_content response) (S02.console st))
                (S02.requests st ++ [S02.System (S02.SYSTEM WORKDIR) :: S02.messages st])%list).
  destruct (forToolCalls_answered WORKDIR shell JSON_parse untyped tcs st1 Hans)
    as (outputs & st' & Hlen & Hfor & Hm & Hr).
  assert (S02.agentLoop WORKDIR shell JSON_parse llm untyped (S (S fuel)) st
          = S02.agentLoop WORKDIR shell JSON_parse llm untyped (S fuel) st') as Hstep.
  { remember (S fuel) as n. simpl. rewrite Hllm, Htcs, Hfin. simpl.
    fold st1. by rewrite Hfor. }
  destruct (agentLoop_first_request WORKDIR shell JSON_parse llm untyped fuel st')
    as [later Hlater].
  exists outputs, st', later. repeat split; [done| |done|].
  - rewrite Hm. simpl. by rewrite <- app_assoc.
  - rewrite Hstep, Hlater, Hr. simpl. by rewrite <- app_assoc.
Qed.

Lemma dispatch_pairing_witness :
  exists outputs st' later,
    length outputs = 2%nat /\
    S02.messages st'
      = [S02.User "list the files";
         S02.Assistant None (Some [Fixtures.bashLs; Fixtures.unknownTool]);
         S02.ToolResult "call_1" (outputs !!! 0%nat);
         S02.ToolResult "call_2" (outputs !!! 1%nat)] /\
    Fixtures.run [Fixtures.bashLs; Fixtures.unknownTool] "tool_calls" 2 Fixtures.st0
      = Fixtures.run [Fixtures.bashLs; Fixtures.unknownTool] "tool_calls" 1 st' /\
    S02.requests
      (S02.finalState
         (Fixtures.run [Fixtures.bashLs; Fixtures.unknownTool] "tool_calls" 2 Fixtures.st0))
      = [S02.System (S02.SYSTEM Fixtures.WORKDIR) :: S02.messages Fixtures.st0;
         S02.System (S02.SYSTEM Fixtures.WORKDIR) :: S02.messages st'] ++ later.
Proof.
  destruct (dispatch_pairing Fixtures.WORKDIR Fixtures.okShell JSON.parse
              (Fixtures.model [Fixtures.bashLs; Fixtures.unknownTool] "tool_calls")
              Fixtures.untyped Fixtures.st0
              (S02.mkResponse None (Some [Fixtures.bashLs; Fixtures.unknownTool]) "tool_calls")
              [Fixtures.bashLs; Fixtures.unknownTool] 0%nat)
    as (outputs & st' & later & Hlen & Hm & Hstep & Hreq).
  - reflexivity.
  - reflexivity.
  - reflexivity.
  - repeat constructor.
    + intros w. exists "ok", (S02.mkWorld (S02.fs w) (S02.procs w ++ ["ls"])).
      reflexivity.
    + intros w. exists "Unknown tool: list_dir", w. reflexivity.
  - exists outputs, st', later. repeat split; [exact Hlen| |exact Hstep|exact Hreq].
    rewrite Hm. destruct outputs as [|o1 [|o2 [|o3 outputs]]]; try discriminate Hlen.
    reflexivity.
Defined.

(** C2, as the claim has it, fails twice over. An assistant turn with one
    tool call and finish reason [stop] ends the loop: the call gets no tool
    turn, and the request of the next query holds the call unanswered. An
    assistant turn with finish reason [tool_calls] whose one call has
    arguments that are no JSON makes the loop throw, again with no tool
    turn pushed. *)
Lemma dispatch_pairing_counterexample :
  (exists st,
     Fixtures.run [Fixtures.bashLs] "stop" 5 Fixtures.st0 = S02.Returned st /\
     S02.messages st
       = [S02.User "list the files"; S02.Assistant None (Some [Fixtures.bashLs])] /\
     S02.requests
       (S02.finalState
          (Fixtures.run [] "stop" 1
             (S02.mkState (S02.world st) (S02.messages st ++ [S02.User "and now?"])
                (S02.console st) [])))
       = [[S02.System (S02.SYSTEM Fixtures.WORKDIR);
           S02.User "list the files";
           S02.Assistant None (Some [Fixtures.bashLs]);
           S02.User "and now?"]]) /\
  (exists e st,
     Fixtures.run [Fixtures.bashCutShort] "tool_calls" 5 Fixtures.st0 = S02.Raised e st /\
     JS.name e = "SyntaxError" /\
     S02.messages st
       = [S02.User "list the files"; S02.Assistant None (Some [Fixtures.bashCutShort])]).
Proof.
  split.
  - eexists. split; [reflexivity|]. split; reflexivity.
  - eexists _, _. split; [reflexivity|]. split; reflexivity.
Qed.

(** C3, evaluated where it fails. The model asks for [bash] with the
    arguments [{}]: no [command] is put in its place, [runBash] calls
    [includes] on [undefined], and the [TypeError] leaves the loop; the same
    with arguments cut short after the brace, where [JSON.parse] throws a
    [SyntaxError]. In both runs the assistant turn stays in the conversation
    and no tool turn follows it. *)
Theorem dispatch_malformed_arguments_raise :
  (forall fuel, exists e st,
     Fixtures.run [Fixtures.bashNoCommand] "tool_calls" (S fuel) Fixtures.st0
       = S02.Raised e st /\
     JS.name e = "TypeError" /\
     S02.messages st
       = [S02.User "list the files"; S02.Assistant None (Some [Fixtures.bashNoCommand])]) /\
  (forall fuel, exists e st,
     Fixtures.run [Fixtures.bashCutShort] "tool_calls" (S fuel) Fixtures.st0
       = S02.Raised e st /\
     JS.name e = "SyntaxError" /\
     S02.messages st
       = [S02.User "list the files"; S02.Assistant None (Some [Fixtures.bashCutShort])]).
Proof.
  split; intros fuel; eexists _, _; (split; [reflexivity|]); split; reflexivity.
Qed.

(** C8, evaluated where it fails. [toString] is none of the four tools, but
    the dispatch map is an object literal and inherits a [toString]: the call
    is answered with [[object Undefined]], not with [Unknown tool: toString].
    And a call of the unknown tool [list_dir] whose arguments are no JSON is
    not answered at all: [JSON.parse] runs before the name is looked up, and
    what it throws leaves the loop. *)
Theorem dispatch_unknown_tool_name :
  S02.own S02.registry "toString" = None /\
  S02.own S02.registry "list_dir" = None /\
  (forall fuel, exists st,
     Fixtures.run [Fixtures.toStringTool] "tool_calls" (S (S fuel)) Fixtures.st0
       = S02.Returned st /\
     S02.messages st
       = [S02.User "list the files";
          S02.Assistant None (Some [Fixtures.toStringTool]);
          S02.ToolResult "call_1" "[object Undefined]";
          S02.Assistant (Some "done") None]) /\
  "[object Undefined]" <> "Unknown tool: toString" /\
  (forall fuel, exists e st,
     Fixtures.run [Fixtures.unknownCutShort] "tool_calls" (S fuel) Fixtures.st0
       = S02.Raised e st /\
     JS.name e = "SyntaxError" /\
     S02.messages st
       = [S02.User "list the files"; S02.Assistant None (Some [Fixtures.unknownCutShort])]).
Proof.
  split; [reflexivity|]. split; [reflexivity|]. split; [|split; [discriminate|]].
  - intros fuel. eexists. split; reflexivity.
  - intros fuel. eexists _, _. split; [reflexivity|]. split; reflexivity.
Qed.

(** ** The [s01_agent_loop] variants *)

Section VariantFacts.
Variable shell : string -> FS.t -> Proc.result * FS.t.
Variable JSON_parse : string -> option JSON.value.
Variable toString : JSON.value -> JS.Completion string.

(** X15. The OpenAI variant answers a [bash] call whose arguments are no
    JSON: it runs the empty command and pushes the tool turn. *)
Lemma s01_arguments_cut_short_answered tc st :
  S02.fn_name tc = "bash" ->
  JSON_parse (S02.fn_arguments tc) = None ->
  exists output w',
    S01.runBash shell EmptyString (S02.world st) = (output, w') /\
    fst (S01.forToolCalls shell JSON_parse toString [tc] st) = None /\
    S02.messages (snd (S01.forToolCalls shell JSON_parse toString [tc] st))
      = S02.messages st ++ [S02.ToolResult (S02.call_id tc) output].
Proof.
  intros Hn Hp. simpl. rewrite Hn. simpl.
  unfold S01.argumentsOf. rewrite Hp. simpl.
  destruct (S01.runBash shell EmptyString (S02.world st)) as [output w'].
  by exists output, w'.
Qed.

(** It passes over a call under any other name: no tool turn answers it. *)
Lemma s01_other_name_passed_over tc tcs st :
  S02.fn_name tc <> "bash" ->
  S01.forToolCalls shell JSON_parse toString (tc :: tcs) st
    = S01.forToolCalls shell JSON_parse toString tcs st.
Proof. intros Hn. simpl. by destruct (decide _). Qed.

Lemma resultIds_snoc results id output :
  S01.resultIds (results ++ [S01.ToolResultBlock id output])
    = S01.resultIds results ++ [id].
Proof. unfold S01.resultIds. by rewrite omap_app. Qed.

(** In the Anthropic variant a round that runs to its end has collected one
    result per [tool_use] block, in the order of the blocks and under their
    identifiers; they go into one user turn. *)
Lemma s01_blocks_answered_in_order bs results w out results' w' out' :
  S01.forBlocks shell toString bs results w out = (None, results', w', out') ->
  S01.resultIds results' = S01.resultIds results ++ S01.toolUseIds bs.
Proof.
  revert results w out; induction bs as [|b bs IH]; intros results w out.
  - simpl. intros [= <- _ _]. by rewrite app_nil_r.
  - destruct b as [text|id name input|id content]; simpl; [by apply IH| |by apply IH].
    destruct (S01.commandOf toString input) as [e|command]; [done|].
    destruct (S01.runBash shell command w) as [output w1].
    intros H%IH. rewrite H, resultIds_snoc, <- app_assoc. done.
Qed.
End VariantFacts.

(** * Further properties of the executors *)

Lemma substring_from_start s n : JS.substring s 0 n = JS.take n s.
Proof. unfold JS.substring. simpl. by rewrite Nat.sub_0_r. Qed.

Lemma length_take n s : (String.length (JS.take n s) <= n)%nat.
Proof.
  revert s; induction n as [|n IH]; intros [|c s]; simpl; try lia.
  specialize (IH s). lia.
Qed.

Lemma take_nonempty n s : (0 < n)%nat -> s <> EmptyString -> JS.take n s <> EmptyString.
Proof. destruct n, s; simpl; try done. lia. Qed.

Lemma output_limit_positive : (0 < S02.OUTPUT_LIMIT)%nat.
Proof. unfold S02.OUTPUT_LIMIT. lia. Qed.

Lemma safePath_resolved WORKDIR p fp :
  S02.safePath WORKDIR p = inr fp -> fp = Path.resolve WORKDIR p.
Proof. unfold S02.safePath. destruct (negb _); [done|]. by intros [= <-]. Qed.

Lemma writeFile_written fs p content fs' :
  FS.writeFile fs p content = inr fs' -> fs' = <[p := FS.File content]> fs.
Proof.
  unfold FS.writeFile. destruct (fs !! p) as [[c|]|]; try done.
  - by intros [= <-].
  - destruct (bool_decide _); [done|]. destruct (FS.isDir _ _); [|done].
    by intros [= <-].
Qed.

(** [mkdir] with [recursive] leaves every file as it is. *)
Lemma mkdirs_keeps_files fs base segs fs' q c :
  FS.mkdirs fs base segs = inr fs' ->
  fs !! q = Some (FS.File c) ->
  fs' !! q = Some (FS.File c).
Proof.
  revert fs base; induction segs as [|seg segs IH]; intros fs base; simpl.
  - by intros [= <-].
  - destruct (fs !! (base +:+ "/" +:+ seg)) as [[c'|]|] eqn:E; [done| |];
      intros Hm Hq; apply (IH _ _ Hm); rewrite lookup_insert_ne; try done;
      intros <-; congruence.
Qed.

Lemma rejected_path_untouched_witness :
  S02.runRead Fixtures.WORKDIR "../../etc/passwd" None Fixtures.w0
    = ("Error: Path escapes workspace: ../../etc/passwd", Fixtures.w0) /\
  S02.runWrite Fixtures.WORKDIR "../../etc/passwd" "x" Fixtures.w0
    = ("Error: Path escapes workspace: ../../etc/passwd", Fixtures.w0) /\
  S02.runEdit Fixtures.WORKDIR "../../etc/passwd" "root" "toor" Fixtures.w0
    = ("Error: Path escapes workspace: ../../etc/passwd", Fixtures.w0).
Proof.
  apply (rejected_path_untouched Fixtures.WORKDIR "../../etc/passwd"
           (JS.mkError "Error" "Path escapes workspace: ../../etc/passwd")).
  vm_compute. reflexivity.
Defined.

(** ** Paths that stay inside *)

Lemma split_append_sep sep a b :
  JS.split sep (a +:+ String sep b) = JS.split sep a ++ JS.split sep b.
Proof.
  induction a as [|c a IH].
  - rewrite append_nil_l. simpl. by rewrite Ascii.eqb_refl.
  - rewrite append_cons. simpl. rewrite IH.
    destruct (Ascii.eqb c sep); [done|].
    by destruct (split_cons sep a) as (l & ls & ->).
Qed.

Lemma fold_step_descending segs stack :
  Forall (fun seg => seg <> "..") segs ->
  fold_left Path.step segs stack
    = rev (filter (fun seg => seg <> EmptyString /\ seg <> ".") segs) ++ stack.
Proof.
  intros H; revert stack; induction H as [|seg segs Hseg _ IH]; intros stack; [done|].
  simpl. rewrite IH. unfold Path.step.
  destruct (decide (seg = EmptyString)) as [->|?].
  { rewrite filter_cons_False; [done | by intros [? _]]. }
  destruct (decide (seg = ".")) as [->|?].
  { rewrite filter_cons_False; [done | by intros [_ ?]]. }
  destruct (decide (seg = "..")); [done|].
  rewrite filter_cons_True by done. simpl. by rewrite <- app_assoc.
Qed.

Lemma join_app sep a b :
  a <> [] -> b <> [] ->
  JS.join sep (a ++ b) = JS.join sep a +:+ sep +:+ JS.join sep b.
Proof.
  intros Ha Hb. induction a as [|x a IH]; [done|].
  destruct a as [|y a].
  - simpl. by destruct b.
  - change ((x :: y :: a) ++ b) with (x :: (y :: a) ++ b).
    change ((y :: a) ++ b) with (y :: a ++ b) at 1.
    rewrite join_cons_cons. change (y :: a ++ b) with ((y :: a) ++ b).
    rewrite IH by done. rewrite join_cons_cons. by rewrite !append_assoc.
Qed.

Lemma startsWith_refl s : JS.startsWith s s = true.
Proof. induction s as [|c s IH]; [done|]. cbn [JS.startsWith]. by rewrite Ascii.eqb_refl. Qed.

Lemma ofSegments_extends a b :
  JS.startsWith (Path.ofSegments (a ++ b)) (Path.ofSegments a) = true.
Proof.
  unfold Path.ofSegments. destruct a as [|x a]; [reflexivity|].
  destruct b as [|y b].
  - rewrite app_nil_r. apply startsWith_refl.
  - rewrite join_app by done. rewrite <- append_cons. apply startsWith_append.
Qed.

(** X2. A relative path with no [..] among its segments is never rejected:
    for a working directory in the form [process.cwd()] gives it,
    [safePath] returns the working directory followed by the segments of
    the path, empty segments and [.] dropped. *)
Theorem safePath_accepts_descending WORKDIR p :
  WORKDIR = Path.ofSegments (Path.normalize WORKDIR) ->
  JS.startsWith p "/" = false ->
  Forall (fun seg => seg <> "..") (JS.split Path.SEP p) ->
  S02.safePath WORKDIR p
    = inr (Path.ofSegments
             (Path.normalize WORKDIR
              ++ filter (fun seg => seg <> EmptyString /\ seg <> ".")
                   (JS.split Path.SEP p))).
Proof.
  intros HW Hrel Hdown.
  assert (Path.resolve WORKDIR p
          = Path.ofSegments
              (Path.normalize WORKDIR
               ++ filter (fun seg => seg <> EmptyString /\ seg <> ".")
                    (JS.split Path.SEP p))) as Hres.
  { unfold Path.resolve. change (String Path.SEP EmptyString) with "/". rewrite Hrel.
    f_equal. unfold Path.normalize.
    change (WORKDIR +:+ "/" +:+ p) with (WORKDIR +:+ String Path.SEP p).
    rewrite split_append_sep, fold_left_app, fold_step_descending by done.
    by rewrite rev_app_distr, rev_involutive. }
  unfold S02.safePath. rewrite Hres.
  pose proof (ofSegments_extends (Path.normalize WORKDIR)
                (filter (fun seg => seg <> EmptyString /\ seg <> ".")
                   (JS.split Path.SEP p))) as Hpre.
  rewrite <- HW in Hpre. by rewrite Hpre.
Qed.

Lemma safePath_accepts_descending_witness :
  S02.safePath Fixtures.WORKDIR "notes/./sub//b.txt"
    = inr "/home/agent/project/notes/sub/b.txt".
Proof.
  rewrite (safePath_accepts_descending Fixtures.WORKDIR "notes/./sub//b.txt").
  - vm_compute. reflexivity.
  - vm_compute. reflexivity.
  - reflexivity.
  - repeat constructor; discriminate.
Defined.

(** ** What the file executors write, and what they leave *)

(** X3. When [runWrite] answers [Wrote <n> bytes to <p>], reading the same
    path with no limit in the world it left answers the content that was
    written, cut at 50,000 characters. *)
Theorem write_then_read WORKDIR p fp content (w : S02.World) :
  S02.safePath WORKDIR p = inr fp ->
  fp <> "/" ->
  fst (S02.runWrite WORKDIR p content w)
    = "Wrote " +:+ JS.numberToString (Z.of_nat (JS.utf8Length content))
      +:+ " bytes to " +:+ p ->
  S02.runRead WORKDIR p None (snd (S02.runWrite WORKDIR p content w))
    = (JS.substring content 0 S02.OUTPUT_LIMIT, snd (S02.runWrite WORKDIR p content w)).
Proof.
  intros Hp Hroot. unfold S02.runWrite. rewrite Hp.
  destruct (FS.mkdirRecursive _ _) as [e|fs1]; [discriminate|].
  destruct (FS.writeFile fs1 fp content) as [e|fs2] eqn:Hw; [discriminate|].
  intros _. apply writeFile_written in Hw as ->. simpl.
  unfold S02.runRead. rewrite Hp. simpl. unfold FS.readFile.
  rewrite bool_decide_eq_false_2 by done. rewrite lookup_insert_eq.
  by rewrite join_split.
Qed.

Lemma write_then_read_witness :
  S02.runRead Fixtures.WORKDIR "docs/new/b.txt" None
    (snd (S02.runWrite Fixtures.WORKDIR "docs/new/b.txt" "hello" Fixtures.w0))
  = (JS.substring "hello" 0 S02.OUTPUT_LIMIT,
     snd (S02.runWrite Fixtures.WORKDIR "docs/new/b.txt" "hello" Fixtures.w0)).
Proof.
  apply (write_then_read Fixtures.WORKDIR "docs/new/b.txt"
           "/home/agent/project/docs/new/b.txt").
  - vm_compute. reflexivity.
  - discriminate.
  - vm_compute. reflexivity.
Defined.

(** X4. The file executors touch one path. Whatever the arguments, a file
    at another path than the one [p] resolves to has the content it had
    after [runWrite] and after [runEdit], neither hands a command to the
    shell, and [runRead] returns the world as it was. *)
Theorem file_executors_touch_one_path WORKDIR p q c limit content oldText newText
    (w : S02.World) :
  q <> Path.resolve WORKDIR p ->
  S02.fs w !! q = Some (FS.File c) ->
  S02.fs (snd (S02.runWrite WORKDIR p content w)) !! q = Some (FS.File c) /\
  S02.procs (snd (S02.runWrite WORKDIR p content w)) = S02.procs w /\
  S02.fs (snd (S02.runEdit WORKDIR p oldText newText w)) !! q = Some (FS.File c) /\
  S02.procs (snd (S02.runEdit WORKDIR p oldText newText w)) = S02.procs w /\
  snd (S02.runRead WORKDIR p limit w) = w.
Proof.
  intros Hq Hc. unfold S02.runWrite, S02.runEdit, S02.runRead.
  destruct (S02.safePath WORKDIR p) as [e|fp] eqn:Hp; [done|].
  apply safePath_resolved in Hp. subst fp.
  repeat split.
  - destruct (FS.mkdirRecursive _ _) as [e|fs1] eqn:Hm; [done|].
    pose proof (mkdirs_keeps_files _ _ _ _ _ _ Hm Hc) as Hc1.
    destruct (FS.writeFile fs1 _ content) as [e|fs2] eqn:Hw; [done|].
    apply writeFile_written in Hw as ->. simpl. by rewrite lookup_insert_ne.
  - destruct (FS.mkdirRecursive _ _) as [e|fs1]; [done|].
    by destruct (FS.writeFile fs1 _ content).
  - destruct (FS.readFile _ _) as [e|text]; [done|].
    destruct (negb _); [done|].
    destruct (FS.writeFile _ _ _) as [e|fs2] eqn:Hw; [done|].
    apply writeFile_written in Hw as ->. simpl. by rewrite lookup_insert_ne.
  - destruct (FS.readFile _ _) as [e|text]; [done|].
    destruct (negb _); [done|].
    by destruct (FS.writeFile _ _ _).
  - by destruct (FS.readFile _ _).
Qed.

Lemma file_executors_touch_one_path_witness :
  let q := "/home/agent/project-secrets/key.txt" in
  S02.fs (snd (S02.runWrite Fixtures.WORKDIR "notes/a.txt" "new" Fixtures.w0)) !! q
    = Some (FS.File "hunter2") /\
  S02.procs (snd (S02.runWrite Fixtures.WORKDIR "notes/a.txt" "new" Fixtures.w0)) = [] /\
  S02.fs (snd (S02.runEdit Fixtures.WORKDIR "notes/a.txt" "one" "1" Fixtures.w0)) !! q
    = Some (FS.File "hunter2") /\
  S02.procs (snd (S02.runEdit Fixtures.WORKDIR "notes/a.txt" "one" "1" Fixtures.w0)) = [] /\
  snd (S02.runRead Fixtures.WORKDIR "notes/a.txt" (Some 1%Z) Fixtures.w0) = Fixtures.w0.
Proof.
  apply (file_executors_touch_one_path Fixtures.WORKDIR "notes/a.txt"
           "/home/agent/project-secrets/key.txt" "hunter2").
  - vm_compute. discriminate.
  - vm_compute. reflexivity.
Defined.

(** X5. For a file that can be read, the answer of [runRead] has at most
    50,000 characters, whatever the limit; with no limit it is the start of
    the text of the file. *)
Theorem runRead_bounded WORKDIR p fp text limit (w : S02.World) :
  S02.safePath WORKDIR p = inr fp ->
  FS.readFile (S02.fs w) fp = inr text ->
  (String.length (fst (S02.runRead WORKDIR p limit w)) <= S02.OUTPUT_LIMIT)%nat /\
  fst (S02.runRead WORKDIR p None w) = JS.take S02.OUTPUT_LIMIT text.
Proof.
  intros Hp Hr. unfold S02.runRead. rewrite Hp, Hr. cbv zeta. cbn [fst].
  rewrite !substring_from_start. split; [apply length_take|].
  by rewrite join_split.
Qed.

Lemma runRead_bounded_witness :
  (String.length (fst (S02.runRead Fixtures.WORKDIR "notes/a.txt" (Some 2%Z) Fixtures.w0))
   <= S02.OUTPUT_LIMIT)%nat /\
  fst (S02.runRead Fixtures.WORKDIR "notes/a.txt" None Fixtures.w0)
    = JS.take S02.OUTPUT_LIMIT ("one" +:+ JS.nl +:+ "two" +:+ JS.nl +:+ "three").
Proof.
  apply (runRead_bounded Fixtures.WORKDIR "notes/a.txt" "/home/agent/project/notes/a.txt").
  - vm_compute. reflexivity.
  - vm_compute. reflexivity.
Defined.

Lemma runEdit_first_occurrence_plain_witness :
  S02.runEdit Fixtures.WORKDIR "notes/a.txt" "two" "2" Fixtures.w0
    = ("Edited notes/a.txt",
       S02.mkWorld
         (<["/home/agent/project/notes/a.txt" :=
              FS.File (("one" +:+ JS.nl) +:+ "2" +:+ (JS.nl +:+ "three"))]> Fixtures.disk)
         []).
Proof.
  apply (runEdit_first_occurrence_plain Fixtures.WORKDIR "notes/a.txt"
           "/home/agent/project/notes/a.txt" ("one" +:+ JS.nl) "two" (JS.nl +:+ "three")
           "2" Fixtures.w0).
  - vm_compute. reflexivity.
  - vm_compute. reflexivity.
  - intros pre' post' H.
    destruct (indexOf_occurrence pre' "two" post') as (n & Hn & Hle).
    rewrite <- H in Hn. vm_compute in Hn. injection Hn as <-. exact Hle.
  - vm_compute. reflexivity.
Defined.

Lemma runEdit_empty_old_text_plain_witness :
  S02.runEdit Fixtures.WORKDIR "notes/a.txt" EmptyString "zero " Fixtures.w0
    = ("Edited notes/a.txt",
       S02.mkWorld
         (<["/home/agent/project/notes/a.txt" :=
              FS.File ("zero " +:+ ("one" +:+ JS.nl +:+ "two" +:+ JS.nl +:+ "three"))]>
            Fixtures.disk)
         []).
Proof.
  apply (runEdit_empty_old_text_plain Fixtures.WORKDIR "notes/a.txt"
           "/home/agent/project/notes/a.txt"
           ("one" +:+ JS.nl +:+ "two" +:+ JS.nl +:+ "three") "zero " Fixtures.w0).
  - vm_compute. reflexivity.
  - vm_compute. reflexivity.
  - vm_compute. reflexivity.
Defined.

(** ** [runBash] *)

Lemma truthy_cut s :
  S02.truthy s = true -> JS.substring s 0 S02.OUTPUT_LIMIT <> EmptyString.
Proof.
  intros H%truthy_iff. rewrite substring_from_start.
  apply take_nonempty; [apply output_limit_positive | done].
Qed.

(** X8. [runBash] never answers with the empty string, in [s02_tool_use]
    and in the [s01_agent_loop] variants, whatever the command and whatever
    the shell does with it: output that trims to nothing is [(no output)] or
    an [Error:] text. *)
Theorem runBash_never_empty shell command (w : S02.World) :
  fst (S02.runBash shell command w) <> EmptyString /\
  fst (S01.runBash shell command w) <> EmptyString.
Proof.
  unfold S02.runBash, S01.runBash.
  destruct (existsb _ _); [done|].
  destruct (shell command (S02.fs w)) as [r fs'].
  destruct r as [msg|code out err|out err registered]; cbn [Proc.execAsync].
  - split; [|done]. cbn -[JS.substring S02.OUTPUT_LIMIT]. done.
  - split.
    + destruct (code =? 0)%Z; cbn -[JS.substring S02.OUTPUT_LIMIT JS.trim];
        destruct (S02.truthy _) eqn:E; cbn [fst]; try done; by apply truthy_cut.
    + cbv zeta. destruct (S02.truthy _) eqn:E; cbn [fst]; [by apply truthy_cut | done].
  - split; [cbn -[JS.substring S02.OUTPUT_LIMIT JS.trim]; done|].
    cbv zeta. destruct registered; cbn [fst]; [done|].
    destruct (S02.truthy _) eqn:E; [by apply truthy_cut | done].
Qed.



(** * Further properties of the loop *)

Section LoopTrace.
Variable WORKDIR : string.
Variable shell : string -> FS.t -> Proc.result * FS.t.
Variable JSON_parse : string -> option JSON.value.
Variable llm : list S02.Message -> JS.Completion S02.Response.
Variable untyped : S02.Tool -> JSON.value -> S02.World -> string * S02.World.

Local Abbreviation forToolCalls := (S02.forToolCalls WORKDIR shell JSON_parse untyped).
Local Abbreviation agentLoop := (S02.agentLoop WORKDIR shell JSON_parse llm untyped).
Local Abbreviation SYSTEM := (S02.SYSTEM WORKDIR).

(** The [for] loop pushes tool turns only, and sends nothing. *)
Lemma forToolCalls_trace tcs st :
  exists added,
    S02.messages (snd (forToolCalls tcs st)) = S02.messages st ++ added /\
    Forall (fun m => S02.fromLoop m = true) added /\
    S02.requests (snd (forToolCalls tcs st)) = S02.requests st.
Proof.
  revert st; induction tcs as [|tc tcs IH]; intros st.
  - exists []. by rewrite app_nil_r.
  - simpl. destruct (S02.invoke _ _ _ _ _ _) as [[e|output] w'].
    + exists []. by rewrite app_nil_r.
    + destruct (IH (S02.mkState w'
                      (S02.messages st ++ [S02.ToolResult (S02.call_id tc) output])
                      (S02.console st ++ [S02.traceLine tc output])
                      (S02.requests st))) as (added & Hm & Hk & Hr).
      exists (S02.ToolResult (S02.call_id tc) output :: added).
      rewrite Hm, Hr. simpl. rewrite <- app_assoc. by repeat constructor.
Qed.

(** What a run of the loop does to the conversation and to the log of
    requests. *)
Lemma agentLoop_trace fuel st :
  exists added sent,
    S02.messages (S02.finalState (agentLoop fuel st)) = S02.messages st ++ added /\
    Forall (fun m => S02.fromLoop m = true) added /\
    S02.requests (S02.finalState (agentLoop fuel st)) = S02.requests st ++ sent /\
    Forall (fun request =>
              exists pushed, request = S02.System SYSTEM :: S02.messages st ++ pushed)
           sent.
Proof.
  revert st; induction fuel as [|fuel IH]; intros st.
  { exists [], []. by rewrite !app_nil_r. }
  simpl. destruct (llm _) as [e|r].
  { exists [], [S02.System SYSTEM :: S02.messages st]. simpl.
    rewrite app_nil_r. repeat split; try done.
    repeat constructor. exists []. by rewrite app_nil_r. }
  assert (Forall (fun request =>
            exists pushed, request = S02.System SYSTEM :: S02.messages st ++ pushed)
            [S02.System SYSTEM :: S02.messages st]) as Hfirst.
  { repeat constructor. exists []. by rewrite app_nil_r. }
  destruct (S02.r_tool_calls r) as [tcs|]; cycle 1.
  { exists [S02.Assistant (S02.r_content r) None], [S02.System SYSTEM :: S02.messages st].
    simpl. repeat split; try done. by repeat constructor. }
  destruct (negb _).
  { exists [S02.Assistant (S02.r_content r) (Some tcs)],
           [S02.System SYSTEM :: S02.messages st].
    simpl. repeat split; try done. by repeat constructor. }
  destruct (forToolCalls_trace tcs
              (S02.mkState (S02.world st)
                 (S02.messages st ++ [S02.Assistant (S02.r_content r) (Some tcs)])
                 (S02.logContent (S02.r_content r) (S02.console st))
                 (S02.requests st ++ [S02.System SYSTEM :: S02.messages st])))
    as (added & Hm & Hk & Hr).
  destruct (forToolCalls _ _) as [[e|] st'']; simpl in Hm, Hr.
  - exists (S02.Assistant (S02.r_content r) (Some tcs) :: added),
           [S02.System SYSTEM :: S02.messages st].
    simpl. rewrite Hm, Hr, <- app_assoc. repeat split; try done.
    by repeat constructor.
  - destruct (IH st'') as (added' & sent' & Hm' & Hk' & Hr' & Hs').
    exists (S02.Assistant (S02.r_content r) (Some tcs) :: added ++ added'),
           ((S02.System SYSTEM :: S02.messages st) :: sent').
    rewrite Hm', Hr', Hm, Hr, <- !app_assoc. simpl. repeat split; try done.
    + constructor; [done|]. by apply Forall_app.
    + constructor; [exists []; by rewrite app_nil_r|].
      eapply Forall_impl; [exact Hs'|].
      intros request [pushed ->]. rewrite Hm.
      exists (S02.Assistant (S02.r_content r) (Some tcs) :: added ++ pushed).
      by rewrite <- !app_assoc.
Qed.
End LoopTrace.

(** X10. The loop only adds to the conversation, and what it adds are
    assistant turns and tool turns: however a run ends (returned, thrown
    out of, or out of fuel), the conversation it leaves is the one it
    started with followed by such turns. *)
Theorem agentLoop_appends_only WORKDIR shell JSON_parse llm untyped fuel (st : S02.State) :
  exists added,
    S02.messages
      (S02.finalState (S02.agentLoop WORKDIR shell JSON_parse llm untyped fuel st))
      = S02.messages st ++ added /\
    Forall (fun m => S02.fromLoop m = true) added.
Proof.
  destruct (agentLoop_trace WORKDIR shell JSON_parse llm untyped fuel st)
    as (added & sent & Hm & Hk & _).
  eauto.
Qed.

(** A [for] loop that runs to its end has pushed one tool turn per call. *)
Lemma forToolCalls_completed WORKDIR shell JSON_parse untyped tcs (st st' : S02.State) :
  S02.forToolCalls WORKDIR shell JSON_parse untyped tcs st = (None, st') ->
  exists outputs,
    length outputs = length tcs /\
    S02.messages st'
      = S02.messages st ++ zip_with S02.ToolResult (map S02.call_id tcs) outputs /\
    S02.requests st' = S02.requests st.
Proof.
  revert st; induction tcs as [|tc tcs IH]; intros st; simpl.
  - intros [= <-]. exists []. by rewrite app_nil_r.
  - destruct (S02.invoke _ _ _ _ _ _) as [[e|output] w']; [done|].
    intros (outputs & Hlen & Hm & Hr)%IH.
    exists (output :: outputs). simpl. rewrite Hlen, Hm, Hr. simpl.
    by rewrite <- app_assoc.
Qed.

(** The requests of a run, one after the other. *)
Lemma agentLoop_requests_chain WORKDIR shell JSON_parse llm untyped fuel (st : S02.State) :
  exists sent,
    S02.requests
      (S02.finalState (S02.agentLoop WORKDIR shell JSON_parse llm untyped fuel st))
      = S02.requests st ++ sent /\
    (forall r, sent !! 0%nat = Some r ->
               r = S02.System (S02.SYSTEM WORKDIR) :: S02.messages st) /\
    ((0 < fuel)%nat -> sent <> []) /\
    (sent = [] ->
     S02.messages
       (S02.finalState (S02.agentLoop WORKDIR shell JSON_parse llm untyped fuel st))
     = S02.messages st) /\
    (forall i r r',
       sent !! i = Some r -> sent !! S i = Some r' ->
       exists response tcs outputs,
         llm r = inr response /\
         S02.r_tool_calls response = Some tcs /\
         length outputs = length tcs /\
         r' = r ++ S02.Assistant (S02.r_content response) (Some tcs)
                   :: zip_with S02.ToolResult (map S02.call_id tcs) outputs) /\
    (forall r, last sent = Some r ->
       exists tail,
         S02.System (S02.SYSTEM WORKDIR)
         :: S02.messages
              (S02.finalState (S02.agentLoop WORKDIR shell JSON_parse llm untyped fuel st))
         = r ++ tail).
Proof.
  revert st; induction fuel as [|fuel IH]; intros st.
  { exists []. rewrite app_nil_r. repeat split; try done. lia. }
  set (r0 := S02.System (S02.SYSTEM WORKDIR) :: S02.messages st).
  assert (forall final : S02.State,
            S02.requests final = S02.requests st ++ [r0] ->
            (exists added, S02.messages final = S02.messages st ++ added) ->
            S02.requests final = S02.requests st ++ [r0] /\
            (forall r, [r0] !! 0%nat = Some r -> r = r0) /\
            ((0 < S fuel)%nat -> [r0] <> []) /\
            ([r0] = [] -> S02.messages final = S02.messages st) /\
            (forall i r r',
               [r0] !! i = Some r -> [r0] !! S i = Some r' ->
               exists response tcs outputs,
                 llm r = inr response /\
                 S02.r_tool_calls response = Some tcs /\
                 length outputs = length tcs /\
                 r' = r ++ S02.Assistant (S02.r_content response) (Some tcs)
                           :: zip_with S02.ToolResult (map S02.call_id tcs) outputs) /\
            (forall r, last [r0] = Some r ->
               exists tail,
                 S02.System (S02.SYSTEM WORKDIR) :: S02.messages final = r ++ tail))
    as Hone.
  { intros final Hr [added Hm]. repeat split; try done.
    - by intros r [= <-].
    - intros r [= <-]. exists added. unfold r0. by rewrite Hm. }
  simpl. fold r0. destruct (llm r0) as [e|response] eqn:Hllm.
  { exists [r0]. apply Hone; [done|]. exists []. by rewrite app_nil_r. }
  destruct (S02.r_tool_calls response) as [tcs|] eqn:Htcs; cycle 1.
  { exists [r0]. apply Hone; [done|]. simpl. eauto. }
  destruct (negb _).
  { exists [r0]. apply Hone; [done|]. simpl. eauto. }
  set (st1 := S02.mkState (S02.world st)
                (S02.messages st ++ [S02.Assistant (S02.r_content response) (Some tcs)])
                (S02.logContent (S02.r_content response) (S02.console st))
                (S02.requests st ++ [r0])).
  destruct (forToolCalls_trace WORKDIR shell JSON_parse untyped tcs st1)
    as (added & Hm & _ & Hr).
  destruct (S02.forToolCalls _ _ _ _ tcs st1) as [[e|] st2] eqn:Hfor; simpl in Hm, Hr.
  { exists [r0]. apply Hone; [done|]. simpl. rewrite Hm, <- app_assoc. eauto. }
  destruct (forToolCalls_completed _ _ _ _ _ _ _ Hfor) as (outputs & Hlen & Hm2 & _).
  simpl in Hm2.
  assert (S02.System (S02.SYSTEM WORKDIR) :: S02.messages st2
          = r0 ++ S02.Assistant (S02.r_content response) (Some tcs)
                  :: zip_with S02.ToolResult (map S02.call_id tcs) outputs) as Hnext.
  { unfold r0. rewrite Hm2, <- app_assoc. done. }
  destruct (IH st2) as (sent & Hsent & Hhead & Hne & Hempty & Hpairs & Hlast).
  exists (r0 :: sent). repeat split.
  - rewrite Hsent, Hr, <- app_assoc. done.
  - by intros r [= <-].
  - done.
  - done.
  - intros [|i] r r' H1 H2.
    + injection H1 as <-. apply Hhead in H2 as ->.
      exists response, tcs, outputs. by rewrite Hnext.
    + by apply (Hpairs i).
  - intros r Hl. destruct sent as [|r1 sent].
    + injection Hl as <-. rewrite (Hempty eq_refl), Hnext. eauto.
    + rewrite last_cons_cons in Hl. by apply Hlast.
Qed.

(** X11. Every request of a run is the whole conversation of the moment
    behind the system prompt. The first request is the conversation the run
    started with; each later one is the request before it, followed by the
    assistant turn the model gave in answer to that request and by one tool
    turn per tool call of that turn, in the order of the calls; and the
    conversation the run leaves starts with the conversation of its last
    request. No turn is dropped, reordered or cut. *)
Theorem agentLoop_requests_whole WORKDIR shell JSON_parse llm untyped fuel (st : S02.State) :
  exists sent,
    S02.requests
      (S02.finalState (S02.agentLoop WORKDIR shell JSON_parse llm untyped fuel st))
      = S02.requests st ++ sent /\
    ((0 < fuel)%nat ->
     sent !! 0%nat = Some (S02.System (S02.SYSTEM WORKDIR) :: S02.messages st)) /\
    (forall i r r',
       sent !! i = Some r -> sent !! S i = Some r' ->
       exists response tcs outputs,
         llm r = inr response /\
         S02.r_tool_calls response = Some tcs /\
         length outputs = length tcs /\
         r' = r ++ S02.Assistant (S02.r_content response) (Some tcs)
                   :: zip_with S02.ToolResult (map S02.call_id tcs) outputs) /\
    (forall r, last sent = Some r ->
       exists tail,
         S02.System (S02.SYSTEM WORKDIR)
         :: S02.messages
              (S02.finalState (S02.agentLoop WORKDIR shell JSON_parse llm untyped fuel st))
         = r ++ tail).
Proof.
  destruct (agentLoop_requests_chain WORKDIR shell JSON_parse llm untyped fuel st)
    as (sent & Hsent & Hhead & Hne & _ & Hpairs & Hlast).
  exists sent. repeat split; try done.
  intros Hfuel. destruct sent as [|r sent]; [by destruct (Hne Hfuel)|].
  by rewrite (Hhead r eq_refl).
Qed.

(** X12. When the model answers without tool calls, or with a finish reason
    other than [tool_calls], the loop pushes that one assistant turn and
    returns: no tool runs, the world is as it was, and one request was
    sent. *)
Theorem agentLoop_final_answer WORKDIR shell JSON_parse llm untyped fuel
    (st : S02.State) response :
  llm (S02.System (S02.SYSTEM WORKDIR) :: S02.messages st) = inr response ->
  S02.r_tool_calls response = None \/ S02.finish_reason response <> "tool_calls" ->
  S02.agentLoop WORKDIR shell JSON_parse llm untyped (S fuel) st
    = S02.Returned
        (S02.mkState (S02.world st)
           (S02.messages st
            ++ [S02.Assistant (S02.r_content response) (S02.r_tool_calls response)])
           (S02.logContent (S02.r_content response) (S02.console st))
           (S02.requests st ++ [S02.System (S02.SYSTEM WORKDIR) :: S02.messages st])).
Proof.
  intros Hllm Hstop. simpl. rewrite Hllm.
  destruct (S02.r_tool_calls response) as [tcs|]; [|done].
  destruct Hstop as [?|Hf]; [done|].
  by rewrite bool_decide_eq_false_2.
Qed.

Lemma agentLoop_final_answer_witness :
  Fixtures.run [Fixtures.bashLs] "length" 3 Fixtures.st0
    = S02.Returned
        (S02.mkState Fixtures.w0
           [S02.User "list the files"; S02.Assistant None (Some [Fixtures.bashLs])]
           []
           [[S02.System (S02.SYSTEM Fixtures.WORKDIR); S02.User "list the files"]]).
Proof.
  apply (agentLoop_final_answer Fixtures.WORKDIR Fixtures.okShell JSON.parse
           (Fixtures.model [Fixtures.bashLs] "length") Fixtures.untyped 2 Fixtures.st0
           (S02.mkResponse None (Some [Fixtures.bashLs]) "length")).
  - reflexivity.
  - right. discriminate.
Defined.

(** ** Dispatch *)

Lemma runWrite_wrote WORKDIR p fp content (w : S02.World) :
  S02.safePath WORKDIR p = inr fp ->
  fst (S02.runWrite WORKDIR p content w)
    = "Wrote " +:+ JS.numberToString (Z.of_nat (JS.utf8Length content))
      +:+ " bytes to " +:+ p ->
  exists fs1,
    snd (S02.runWrite WORKDIR p content w)
      = S02.mkWorld (<[fp := FS.File content]> fs1) (S02.procs w).
Proof.
  intros Hp. unfold S02.runWrite. rewrite Hp.
  destruct (FS.mkdirRecursive _ _) as [e|fs1]; [discriminate|].
  destruct (FS.writeFile fs1 fp content) as [e|fs2] eqn:Hw; [discriminate|].
  intros _. apply writeFile_written in Hw as ->. by exists fs1.
Qed.

Lemma runRead_written WORKDIR p fp content fs1 procs :
  S02.safePath WORKDIR p = inr fp ->
  fp <> "/" ->
  fst (S02.runRead WORKDIR p None (S02.mkWorld (<[fp := FS.File content]> fs1) procs))
    = JS.substring content 0 S02.OUTPUT_LIMIT.
Proof.
  intros Hp Hroot. unfold S02.runRead. rewrite Hp. cbn [S02.fs]. unfold FS.readFile.
  rewrite bool_decide_eq_false_2 by done. rewrite lookup_insert_eq.
  cbv zeta. cbn [fst]. by rewrite join_split.
Qed.

(** X13. Tool calls under names that are no property of the dispatch map,
    with arguments that are JSON, are each answered with
    [Unknown tool: <name>] under the identifier of the call, in the order of
    the calls; the world is not touched and the loop goes on. *)
Theorem unknown_tools_answered WORKDIR shell JSON_parse untyped tcs (st : S02.State) :
  Forall (fun tc =>
            S02.TOOL_HANDLERS (S02.fn_name tc) = None /\
            is_Some (JSON_parse (S02.fn_arguments tc))) tcs ->
  S02.forToolCalls WORKDIR shell JSON_parse untyped tcs st
    = (None,
       S02.mkState (S02.world st)
         (S02.messages st
          ++ map (fun tc => S02.ToolResult (S02.call_id tc)
                              ("Unknown tool: " +:+ S02.fn_name tc)) tcs)
         (S02.console st
          ++ map (fun tc => S02.traceLine tc ("Unknown tool: " +:+ S02.fn_name tc)) tcs)
         (S02.requests st)).
Proof.
  intros H; revert st; induction H as [|tc tcs [Hh [args Hp]] _ IH]; intros st.
  - simpl. rewrite !app_nil_r. by destruct st.
  - simpl. unfold S02.invoke. rewrite Hp, Hh. rewrite IH. simpl.
    by rewrite <- !app_assoc.
Qed.

Lemma unknown_tools_answered_witness :
  S02.forToolCalls Fixtures.WORKDIR Fixtures.okShell JSON.parse Fixtures.untyped
    [Fixtures.unknownTool] Fixtures.st0
  = (None,
     S02.mkState Fixtures.w0
       [S02.User "list the files"; S02.ToolResult "call_2" "Unknown tool: list_dir"]
       ["> list_dir: Unknown tool: list_dir"]
       []).
Proof.
  apply (unknown_tools_answered Fixtures.WORKDIR Fixtures.okShell JSON.parse
           Fixtures.untyped [Fixtures.unknownTool] Fixtures.st0).
  repeat constructor. by eexists.
Defined.

(** X14. The calls of one assistant turn run one after the other, each in
    the world its predecessor left: a [write_file] that answers
    [Wrote ...] followed by a [read_file] of the same path with no limit is
    answered with the content just written, cut at 50,000 characters. *)
Theorem write_then_read_same_turn WORKDIR shell JSON_parse untyped
    tcW tcR fieldsW fieldsR p fp content (st : S02.State) :
  S02.fn_name tcW = "write_file" ->
  JSON_parse (S02.fn_arguments tcW) = Some (JSON.JObj fieldsW) ->
  JSON.getField fieldsW "path" = Some (JSON.JStr p) ->
  JSON.getField fieldsW "content" = Some (JSON.JStr content) ->
  S02.fn_name tcR = "read_file" ->
  JSON_parse (S02.fn_arguments tcR) = Some (JSON.JObj fieldsR) ->
  JSON.getField fieldsR "path" = Some (JSON.JStr p) ->
  JSON.getField fieldsR "limit" = None ->
  S02.safePath WORKDIR p = inr fp ->
  fp <> "/" ->
  fst (S02.runWrite WORKDIR p content (S02.world st))
    = "Wrote " +:+ JS.numberToString (Z.of_nat (JS.utf8Length content))
      +:+ " bytes to " +:+ p ->
  exists st',
    S02.forToolCalls WORKDIR shell JSON_parse untyped [tcW; tcR] st = (None, st') /\
    S02.messages st'
      = S02.messages st
        ++ [S02.ToolResult (S02.call_id tcW)
              ("Wrote " +:+ JS.numberToString (Z.of_nat (JS.utf8Length content))
               +:+ " bytes to " +:+ p);
            S02.ToolResult (S02.call_id tcR) (JS.substring content 0 S02.OUTPUT_LIMIT)].
Proof.
  intros HnW HpW Hpath Hcontent HnR HpR Hpath' Hlimit Hp Hroot Hout.
  destruct (runWrite_wrote _ _ _ _ _ Hp Hout) as [fs1 Hw].
  pose proof (runRead_written WORKDIR p fp content fs1 (S02.procs (S02.world st)) Hp Hroot)
    as Hread.
  cbn [S02.forToolCalls]. unfold S02.invoke. rewrite HpW, HnW, HpR, HnR.
  change (S02.TOOL_HANDLERS "write_file") with (Some (S02.Own S02.WriteFile)).
  change (S02.TOOL_HANDLERS "read_file") with (Some (S02.Own S02.ReadFile)).
  cbn [S02.callHandler S02.callOwn JSON.get].
  rewrite Hpath, Hcontent, Hpath', Hlimit.
  cbn [S02.asString S02.asLimit S02.returns S02.world S02.messages fst snd].
  rewrite Hout, Hw, Hread.
  eexists. split; [reflexivity|]. cbn [S02.messages]. by rewrite <- app_assoc.
Qed.

Lemma write_then_read_same_turn_witness :
  exists st',
    S02.forToolCalls Fixtures.WORKDIR Fixtures.okShell JSON.parse Fixtures.untyped
      [Fixtures.writeNote; Fixtures.readNote] Fixtures.st0 = (None, st') /\
    S02.messages st'
      = [S02.User "list the files";
         S02.ToolResult "call_1" "Wrote 8 bytes to notes/todo.txt";
         S02.ToolResult "call_2" (JS.substring "buy milk" 0 S02.OUTPUT_LIMIT)].
Proof.
  apply (write_then_read_same_turn Fixtures.WORKDIR Fixtures.okShell JSON.parse
           Fixtures.untyped Fixtures.writeNote Fixtures.readNote
           [("path", JSON.JStr "notes/todo.txt"); ("content", JSON.JStr "buy milk")]
           [("path", JSON.JStr "notes/todo.txt")]
           "notes/todo.txt" "/home/agent/project/notes/todo.txt" "buy milk" Fixtures.st0);
    try (vm_compute; reflexivity).
  discriminate.
Defined.

(** * Further properties of the [s01_agent_loop] variants *)

Lemma s01_arguments_cut_short_answered_witness :
  exists output w',
    S01.runBash Fixtures.okShell EmptyString (S02.world Fixtures.st0) = (output, w') /\
    fst (S01.forToolCalls Fixtures.okShell JSON.parse Fixtures.toString
           [Fixtures.bashCutShort] Fixtures.st0) = None /\
    S02.messages (snd (S01.forToolCalls Fixtures.okShell JSON.parse Fixtures.toString
                         [Fixtures.bashCutShort] Fixtures.st0))
      = S02.messages Fixtures.st0 ++ [S02.ToolResult "call_1" output].
Proof.
  apply (s01_arguments_cut_short_answered Fixtures.okShell JSON.parse Fixtures.toString
           Fixtures.bashCutShort Fixtures.st0).
  - reflexivity.
  - vm_compute. reflexivity.
Defined.

(** X16. The OpenAI variant answers the calls named [bash] and no others:
    when the command of each such call can be read, the [for] loop runs to
    its end and has pushed one tool turn per call named [bash], in their
    order and under their identifiers; a call under another name gets no
    tool turn. *)
Theorem s01_answers_bash_only shell JSON_parse toString tcs (st : S02.State) :
  Forall (fun tc =>
            S02.fn_name tc = "bash" ->
            exists command,
              S01.commandOf toString (S01.argumentsOf JSON_parse tc) = inr command)
         tcs ->
  exists outputs st',
    S01.forToolCalls shell JSON_parse toString tcs st = (None, st') /\
    length outputs = length (filter (fun tc => S02.fn_name tc = "bash") tcs) /\
    S02.messages st'
      = S02.messages st
        ++ zip_with S02.ToolResult
             (map S02.call_id (filter (fun tc => S02.fn_name tc = "bash") tcs))
             outputs.
Proof.
  intros H; revert st; induction H as [|tc tcs Htc _ IH]; intros st.
  - exists [], st. by rewrite app_nil_r.
  - simpl. destruct (decide (S02.fn_name tc = "bash")) as [Hn|Hn].
    + destruct (Htc Hn) as [command ->].
      destruct (S01.runBash shell command (S02.world st)) as [output w'].
      edestruct IH as (outputs & st' & -> & Hlen & Hm).
      exists (output :: outputs), st'. rewrite filter_cons_True by done.
      simpl. rewrite Hlen, Hm. simpl. by rewrite <- app_assoc.
    + destruct (IH st) as (outputs & st' & -> & Hlen & Hm).
      exists outputs, st'. by rewrite filter_cons_False.
Qed.

Lemma s01_answers_bash_only_witness :
  exists outputs st',
    S01.forToolCalls Fixtures.okShell JSON.parse Fixtures.toString
      [Fixtures.unknownTool; Fixtures.bashLs] Fixtures.st0 = (None, st') /\
    length outputs = 1%nat /\
    S02.messages st'
      = S02.messages Fixtures.st0 ++ zip_with S02.ToolResult ["call_1"] outputs.
Proof.
  apply (s01_answers_bash_only Fixtures.okShell JSON.parse Fixtures.toString
           [Fixtures.unknownTool; Fixtures.bashLs] Fixtures.st0).
  repeat constructor.
  - discriminate.
  - intros _. exists "ls". reflexivity.
Defined.

Lemma forBlocks_answered shell toString bs :
  Forall (fun b => match b with
                   | S01.ToolUse _ _ input =>
                       exists command, S01.commandOf toString input = inr command
                   | _ => True
                   end) bs ->
  forall results w out,
  exists outputs w' out',
    length outputs = length (S01.toolUseIds bs) /\
    S01.forBlocks shell toString bs results w out
      = (None,
         results ++ zip_with S01.ToolResultBlock (S01.toolUseIds bs) outputs, w', out').
Proof.
  induction 1 as [|b bs Hb _ IH]; intros results w out.
  - exists [], w, out. by rewrite app_nil_r.
  - destruct b as [text|id name input|id content]; simpl.
    + apply IH.
    + destruct Hb as [command ->].
      destruct (S01.runBash shell command w) as [output w1].
      destruct (IH (results ++ [S01.ToolResultBlock id output]) w1
                  (out ++ [S01.echoCommand command; JS.substring output 0 200]))
        as (outputs & w' & out' & Hlen & ->).
      exists (output :: outputs), w', out'. simpl. rewrite Hlen.
      by rewrite <- app_assoc.
    + apply IH.
Qed.

(** X17. In the Anthropic variant, when the reply has stop reason
    [tool_use] and the command of each of its [tool_use] blocks can be read,
    the loop pushes the assistant turn and then one user turn that holds one
    result block per [tool_use] block, in the order of the blocks and under
    their identifiers, whatever the names of the tools; then it calls the
    model again. *)
Theorem s01_anthropic_round shell toString llm (st : S01.State) reply fuel :
  llm (S01.messages st) = inr reply ->
  S01.stop_reason reply = "tool_use" ->
  Forall (fun b => match b with
                   | S01.ToolUse _ _ input =>
                       exists command, S01.commandOf toString input = inr command
                   | _ => True
                   end) (S01.blocks reply) ->
  exists outputs st',
    length outputs = length (S01.toolUseIds (S01.blocks reply)) /\
    S01.messages st'
      = S01.messages st
        ++ [S01.mkMessageParam "assistant" (S01.Blocks (S01.blocks reply));
            S01.mkMessageParam "user"
              (S01.Blocks (zip_with S01.ToolResultBlock
                             (S01.toolUseIds (S01.blocks reply)) outputs))] /\
    S01.agentLoopAnthropic shell toString llm (S (S fuel)) st
      = S01.agentLoopAnthropic shell toString llm (S fuel) st'.
Proof.
  intros Hllm Hstop Hbs.
  destruct (forBlocks_answered shell toString _ Hbs [] (S01.world st) (S01.console st))
    as (outputs & w' & out' & Hlen & Hfor).
  exists outputs. eexists. split; [exact Hlen|]. split; cycle 1.
  - remember (S fuel) as n. simpl. rewrite Hllm, Hstop. simpl. rewrite Hfor.
    reflexivity.
  - simpl. by rewrite <- app_assoc.
Qed.

Lemma s01_anthropic_round_witness :
  exists outputs st',
    length outputs = 2%nat /\
    S01.messages st'
      = [S01.mkMessageParam "user" (S01.Text "list the files");
         S01.mkMessageParam "assistant"
           (S01.Blocks [S01.TextBlock "looking";
                        S01.ToolUse "tu_1" "bash" Fixtures.lsInput;
                        S01.ToolUse "tu_2" "list_dir" (JSON.JObj [])]);
         S01.mkMessageParam "user"
           (S01.Blocks (zip_with S01.ToolResultBlock ["tu_1"; "tu_2"] outputs))] /\
    S01.agentLoopAnthropic Fixtures.okShell Fixtures.toString
      (Fixtures.modelAnthropic
         [S01.TextBlock "looking";
          S01.ToolUse "tu_1" "bash" Fixtures.lsInput;
          S01.ToolUse "tu_2" "list_dir" (JSON.JObj [])] "tool_use")
      2 (S01.mkState Fixtures.w0
           [S01.mkMessageParam "user" (S01.Text "list the files")] [] [])
    = S01.agentLoopAnthropic Fixtures.okShell Fixtures.toString
        (Fixtures.modelAnthropic
           [S01.TextBlock "looking";
            S01.ToolUse "tu_1" "bash" Fixtures.lsInput;
            S01.ToolUse "tu_2" "list_dir" (JSON.JObj [])] "tool_use")
        1 st'.
Proof.
  apply (s01_anthropic_round Fixtures.okShell Fixtures.toString
           (Fixtures.modelAnthropic
              [S01.TextBlock "looking";
               S01.ToolUse "tu_1" "bash" Fixtures.lsInput;
               S01.ToolUse "tu_2" "list_dir" (JSON.JObj [])] "tool_use")
           (S01.mkState Fixtures.w0
              [S01.mkMessageParam "user" (S01.Text "list the files")] [] [])
           (S01.mkReply
              [S01.TextBlock "looking";
               S01.ToolUse "tu_1" "bash" Fixtures.lsInput;
               S01.ToolUse "tu_2" "list_dir" (JSON.JObj [])] "tool_use")
           0%nat).
  - reflexivity.
  - reflexivity.
  - repeat constructor.
    + exists "ls". reflexivity.
    + exists EmptyString. reflexivity.
Defined.

(** * Properties of the sessions *)

Lemma userTurns_app a b : S02.userTurns (a ++ b) = S02.userTurns a ++ S02.userTurns b.
Proof. unfold S02.userTurns. apply omap_app. Qed.

Lemma userTurns_fromLoop added :
  Forall (fun m => S02.fromLoop m = true) added -> S02.userTurns added = [].
Proof.
  induction 1 as [|m added Hm _ IH]; [done|].
  destruct m; try done; exact IH.
Qed.

(** X18. A line that trims and lowers to [q], [exit] or nothing ends the
    session in all three programs: the lines after it are never read, so the
    session is the session of the lines before it. *)
Theorem exit_word_ends_session WORKDIR shell JSON_parse untyped toString
    llm llmAnthropic fuel pre line post
    (st : S02.State) (stA : S01.State) :
  Forall (fun l => S02.isExit l = false) pre ->
  S02.isExit line = true ->
  S02.mainLoop WORKDIR shell JSON_parse llm untyped fuel (pre ++ line :: post) st
    = S02.mainLoop WORKDIR shell JSON_parse llm untyped fuel pre st /\
  S01.mainLoop shell JSON_parse toString llm fuel (pre ++ line :: post) st
    = S01.mainLoop shell JSON_parse toString llm fuel pre st /\
  S01.mainLoopAnthropic shell toString llmAnthropic fuel (pre ++ line :: post) stA
    = S01.mainLoopAnthropic shell toString llmAnthropic fuel pre stA.
Proof.
  intros Hpre Hline. repeat split.
  - revert st; induction Hpre as [|l pre Hl _ IH]; intros st; simpl.
    + by rewrite Hline.
    + rewrite Hl. destruct (S02.agentLoop _ _ _ _ _ _ _); try done; apply IH.
  - revert st; induction Hpre as [|l pre Hl _ IH]; intros st; simpl.
    + by rewrite Hline.
    + rewrite Hl. destruct (S01.agentLoop _ _ _ _ _ _); try done; apply IH.
  - revert stA; induction Hpre as [|l pre Hl _ IH]; intros stA; simpl.
    + by rewrite Hline.
    + rewrite Hl. destruct (S01.agentLoopAnthropic _ _ _ _ _); try done; apply IH.
Qed.

Lemma exit_word_ends_session_witness :
  S02.mainLoop Fixtures.WORKDIR Fixtures.okShell JSON.parse
    (Fixtures.model [] "stop") Fixtures.untyped 3
    (["list the files"] ++ "  EXIT " :: ["rm -rf /"]) (S02.mkState Fixtures.w0 [] [] [])
  = S02.mainLoop Fixtures.WORKDIR Fixtures.okShell JSON.parse
      (Fixtures.model [] "stop") Fixtures.untyped 3
      ["list the files"] (S02.mkState Fixtures.w0 [] [] []) /\
  S01.mainLoop Fixtures.okShell JSON.parse Fixtures.toString
    (Fixtures.model [] "stop") 3
    (["list the files"] ++ "  EXIT " :: ["rm -rf /"]) (S02.mkState Fixtures.w0 [] [] [])
  = S01.mainLoop Fixtures.okShell JSON.parse Fixtures.toString
      (Fixtures.model [] "stop") 3
      ["list the files"] (S02.mkState Fixtures.w0 [] [] []) /\
  S01.mainLoopAnthropic Fixtures.okShell Fixtures.toString
    (Fixtures.modelAnthropic [] "end_turn") 3
    (["list the files"] ++ "  EXIT " :: ["rm -rf /"]) (S01.mkState Fixtures.w0 [] [] [])
  = S01.mainLoopAnthropic Fixtures.okShell Fixtures.toString
      (Fixtures.modelAnthropic [] "end_turn") 3
      ["list the files"] (S01.mkState Fixtures.w0 [] [] []).
Proof.
  apply (exit_word_ends_session Fixtures.WORKDIR Fixtures.okShell JSON.parse
           Fixtures.untyped Fixtures.toString (Fixtures.model [] "stop")
           (Fixtures.modelAnthropic [] "end_turn") 3
           ["list the files"] "  EXIT " ["rm -rf /"]).
  - repeat constructor.
  - vm_compute. reflexivity.
Defined.

(** X19. In a session of [s02_tool_use] the user turns of the history are
    the lines the operator typed, trimmed, in order: the lines asked are a
    start of the input without exit word, they are the user turns added to
    the history, and when the session returns they are all the lines up to
    the first exit word or to the end of the input. *)
Theorem session_user_turns WORKDIR shell JSON_parse llm untyped fuel lines
    (st : S02.State) :
  exists asked rest,
    lines = asked ++ rest /\
    Forall (fun l => S02.isExit l = false) asked /\
    S02.userTurns
      (S02.messages
         (S02.finalState (S02.mainLoop WORKDIR shell JSON_parse llm untyped fuel lines st)))
      = S02.userTurns (S02.messages st) ++ map JS.trim asked /\
    (forall st',
       S02.mainLoop WORKDIR shell JSON_parse llm untyped fuel lines st = S02.Returned st' ->
       rest = [] \/ exists l rest', rest = l :: rest' /\ S02.isExit l = true).
Proof.
  revert st; induction lines as [|line lines IH]; intros st.
  { exists [], []. simpl. rewrite app_nil_r. repeat split; auto. }
  simpl. destruct (S02.isExit line) eqn:Hexit.
  { exists [], (line :: lines). simpl. rewrite app_nil_r. repeat split; eauto. }
  destruct (agentLoop_trace WORKDIR shell JSON_parse llm untyped fuel
              (S02.mkState (S02.world st) (S02.messages st ++ [S02.User (JS.trim line)])
                 (S02.console st) (S02.requests st)))
    as (added & sent & Hm & Hk & _).
  simpl in Hm.
  destruct (S02.agentLoop _ _ _ _ _ _ _) as [st1|e st1|st1] eqn:Hloop; simpl in Hm.
  - destruct (IH (S02.mkState (S02.world st1) (S02.messages st1)
                    (S02.console st1 ++ [EmptyString]) (S02.requests st1)))
      as (asked & rest & -> & Hasked & Hturns & Hret).
    exists (line :: asked), rest. repeat split; [by constructor| |exact Hret].
    rewrite Hturns. simpl. rewrite Hm, !userTurns_app, (userTurns_fromLoop added Hk).
    simpl. by rewrite app_nil_r, <- app_assoc.
  - exists [line], lines. repeat split; [by repeat constructor| |done].
    simpl. rewrite Hm, !userTurns_app, (userTurns_fromLoop added Hk).
    simpl. by rewrite app_nil_r.
  - exists [line], lines. repeat split; [by repeat constructor| |done].
    simpl. rewrite Hm, !userTurns_app, (userTurns_fromLoop added Hk).
    simpl. by rewrite app_nil_r.
Qed.

(** X20. The sessions of the two [s01_agent_loop] variants never end on an
    exception of the loop: whatever the loop throws is caught and the next
    line is read. *)
Theorem s01_sessions_catch shell JSON_parse toString llm llmAnthropic fuel lines
    (st : S02.State) (stA : S01.State) :
  (forall e st', S01.mainLoop shell JSON_parse toString llm fuel lines st
                 <> S02.Raised e st') /\
  (forall e st', S01.mainLoopAnthropic shell toString llmAnthropic fuel lines stA
                 <> S01.Raised e st').
Proof.
  split.
  - revert st; induction lines as [|line lines IH]; intros st e st'; simpl; [done|].
    destruct (S02.isExit line); [done|].
    destruct (S01.agentLoop _ _ _ _ _ _); try done; apply IH.
  - revert stA; induction lines as [|line lines IH]; intros stA e st'; simpl; [done|].
    destruct (S02.isExit line); [done|].
    destruct (S01.agentLoopAnthropic _ _ _ _ _); try done; apply IH.
Qed.

(** * All or nothing *)

(** X21. [runEdit] writes or reports an error, never both: either it
    answers [Edited <p>], the file read at the resolved path contained
    [old_text] and now holds what [replace] made of its text, or its answer
    starts with [Error: ] and the world is the one it was given. *)
Theorem runEdit_all_or_nothing WORKDIR p oldText newText (w : S02.World) :
  (exists fp content,
     S02.safePath WORKDIR p = inr fp /\
     FS.readFile (S02.fs w) fp = inr content /\
     JS.includes content oldText = true /\
     S02.runEdit WORKDIR p oldText newText w
       = ("Edited " +:+ p,
          S02.mkWorld (<[fp := FS.File (JS.replace content oldText newText)]> (S02.fs w))
            (S02.procs w))) \/
  (JS.startsWith (fst (S02.runEdit WORKDIR p oldText newText w)) "Error: " = true /\
   snd (S02.runEdit WORKDIR p oldText newText w) = w).
Proof.
  unfold S02.runEdit.
  destruct (S02.safePath WORKDIR p) as [e|fp]; [right; split; [apply startsWith_append|done]|].
  destruct (FS.readFile _ _) as [e|content] eqn:Hr;
    [right; split; [apply startsWith_append|done]|].
  destruct (JS.includes content oldText) eqn:Hi; simpl negb; cbv iota;
    [|right; split; [reflexivity|done]].
  destruct (FS.writeFile _ _ _) as [e|fs'] eqn:Hw;
    [right; split; [apply startsWith_append|done]|].
  left. exists fp, content. apply writeFile_written in Hw as ->. done.
Qed.

(** X22. A command with none of the five strings in it is handed to the
    shell once and as it stands, by both [runBash]: the log of commands
    grows by that command, and the file system is the one the shell
    left. *)
Theorem runBash_runs_once shell command (w : S02.World) :
  Forall (fun d => ~ exists pre post, command = pre +:+ d +:+ post) S02.dangerous ->
  snd (S02.runBash shell command w)
    = S02.mkWorld (snd (shell command (S02.fs w))) (S02.procs w ++ [command]) /\
  snd (S01.runBash shell command w)
    = S02.mkWorld (snd (shell command (S02.fs w))) (S02.procs w ++ [command]).
Proof.
  intros H.
  assert (existsb (fun d => JS.includes command d) S02.dangerous = false) as Hd.
  { apply not_true_is_false. intros (d & pre & post & Hin & ->)%blocked_iff.
    rewrite Forall_forall in H. apply (H d); [by apply list_elem_of_In | eauto]. }
  unfold S02.runBash, S01.runBash. rewrite Hd.
  destruct (shell command (S02.fs w)) as [r fs'].
  split.
  - destruct (Proc.execAsync command r) as [e|[out err]]; [|done].
    by destruct (_ && _).
  - by destruct r as [msg|code out err|out err []].
Qed.

Lemma runBash_runs_once_witness :
  snd (S02.runBash Fixtures.okShell "ls -la" Fixtures.w0)
    = S02.mkWorld Fixtures.disk ["ls -la"] /\
  snd (S01.runBash Fixtures.okShell "ls -la" Fixtures.w0)
    = S02.mkWorld Fixtures.disk ["ls -la"].
Proof.
  apply (runBash_runs_once Fixtures.okShell "ls -la" Fixtures.w0).
  repeat constructor; apply includes_false_iff; vm_compute; reflexivity.
Defined.
